(** * SimpleLink-FI: the serial bootloader client of the ROM read-out notebook

    A shallow embedding of the Python class [SerialBootloaderInterface]
    (README.md, the notebook cell that defines it) and the properties of its
    framing, status handling and chunked memory read.

    Python values are modelled as follows.
    - [bytes] / [bytearray] : [list Z]; the constructors that validate their
      elements ([bytearray([...])], [int.to_bytes]) are fallible here too.
    - exceptions : the type [exn], one constructor per Python exception
      class the code can raise, carrying the message.
    - the pyserial port [self.ser] : the record [Serial], threaded through a
      state-and-exception monad.  The state survives an exception, so the
      link traffic that preceded a failure stays observable.
    Console output ([print], the [tqdm] progress bar) is not modelled. *)

From Stdlib Require Import ZArith List String Ascii Bool Lia DecimalString Permutation.
From Stdlib Require Import PrimFloat.
Import ListNotations.
Local Open Scope Z_scope.

(** ** Python values *)

Definition bytes := list Z.

Inductive exn : Type :=
| ValueError (msg : string)
| AssertionError (msg : string)
| IndexError (msg : string)
| OverflowError (msg : string).

Inductive result (A : Type) : Type :=
| Return (a : A)
| Raise (e : exn).
Arguments Return {A} a.
Arguments Raise {A} e.

Definition is_byte (b : Z) : bool := (0 <=? b) && (b <? 256).

(** [bytearray([x0, x1, ...])]: every element must be in [range(0, 256)]. *)
Definition bytearray (xs : list Z) : result bytes :=
  if forallb is_byte xs then Return xs
  else Raise (ValueError "byte must be in range(0, 256)").

(** [n.to_bytes(4, byteorder='big')]. *)
Definition to_bytes_4_big (n : Z) : result bytes :=
  if n <? 0 then Raise (OverflowError "can't convert negative int to unsigned")
  else if 2 ^ 32 <=? n then Raise (OverflowError "int too big to convert")
  else Return [ Z.land (Z.shiftr n 24) 255; Z.land (Z.shiftr n 16) 255;
                Z.land (Z.shiftr n 8) 255; Z.land n 255 ].

(** [resp.find(b, 0)]: index of the first occurrence, [-1] when absent. *)
Fixpoint find_from (b : Z) (xs : bytes) (i : Z) : Z :=
  match xs with
  | [] => -1
  | x :: xs' => if x =? b then i else find_from b xs' (i + 1)
  end.

Definition find (b : Z) (xs : bytes) : Z := find_from b xs 0.

(** [xs[lo:hi]] with Python's treatment of negative and oversized bounds. *)
Definition clamp_index (len k : Z) : Z :=
  if k <? 0 then Z.max 0 (k + len) else Z.min k len.

Definition slice (xs : bytes) (lo hi : Z) : bytes :=
  let len := Z.of_nat (List.length xs) in
  let lo' := clamp_index len lo in
  let hi' := clamp_index len hi in
  firstn (Z.to_nat (hi' - lo')) (skipn (Z.to_nat lo') xs).

(** [list(xs)[-1]]. *)
Definition last_item (xs : bytes) : result Z :=
  match xs with
  | [] => Raise (IndexError "list index out of range")
  | x :: xs' => Return (last xs' x)
  end.

(** [xs == ys] on byte strings. *)
Fixpoint bytes_eqb (xs ys : bytes) : bool :=
  match xs, ys with
  | [], [] => true
  | x :: xs', y :: ys' => (x =? y) && bytes_eqb xs' ys'
  | _, _ => false
  end.

(** [bytes.hex()]: two lowercase hexadecimal digits per byte. *)
Definition hex_digit (d : Z) : ascii :=
  match d with
  | 0 => "0" | 1 => "1" | 2 => "2" | 3 => "3" | 4 => "4" | 5 => "5"
  | 6 => "6" | 7 => "7" | 8 => "8" | 9 => "9" | 10 => "a" | 11 => "b"
  | 12 => "c" | 13 => "d" | 14 => "e" | _ => "f"
  end%char.

Fixpoint hex (xs : bytes) : string :=
  match xs with
  | [] => EmptyString
  | x :: xs' =>
      String (hex_digit (Z.shiftr x 4)) (String (hex_digit (Z.land x 15)) (hex xs'))
  end.

(** [str(n)] for an integer. *)
Definition str_int (n : Z) : string := NilZero.string_of_int (Z.to_int n).

(** [l.index(x)]. *)
Fixpoint index_from (x : Z) (l : list Z) (i : nat) : option nat :=
  match l with
  | [] => None
  | y :: l' => if y =? x then Some i else index_from x l' (S i)
  end.

Definition list_index (l : list Z) (x : Z) : result nat :=
  match index_from x l 0 with
  | Some i => Return i
  | None => Raise (ValueError (str_int x ++ " is not in list")%string)
  end.

(** ** The serial port

    [pending] is what the input buffer will hold at each successive
    [ser.read(ser.in_waiting)]: the environment decides it, so theorems
    quantify over it.  Once it is exhausted nothing is buffered and a read
    returns the empty byte string.  [trace] records the calls made on the
    port, oldest first. *)

Inductive event : Type :=
| EvFlushInput
| EvWrite (data : bytes)
| EvSleep
| EvRead (data : bytes).

Record Serial : Type := mkSerial {
  pending : list bytes;
  trace : list event
}.

Definition M (A : Type) : Type := Serial -> result A * Serial.

Definition ret {A} (a : A) : M A := fun s => (Return a, s).

Definition raise {A} (e : exn) : M A := fun s => (Raise e, s).

Definition bind {A B} (c : M A) (k : A -> M B) : M B :=
  fun s =>
    match c s with
    | (Return a, s') => k a s'
    | (Raise e, s') => (Raise e, s')
    end.

Definition lift {A} (r : result A) : M A := fun s => (r, s).

Declare Scope py_scope.
Delimit Scope py_scope with py.
Notation "x <- c ;; k" := (bind c (fun x => k))
  (at level 61, c at next level, right associativity) : py_scope.
Notation "c ;;; k" := (bind c (fun _ => k))
  (at level 61, right associativity) : py_scope.
Local Open Scope py_scope.

Definition log (e : event) (s : Serial) : Serial :=
  mkSerial (pending s) (trace s ++ [e]).

Definition ser_flushInput : M unit := fun s => (Return tt, log EvFlushInput s).

Definition ser_write (data : bytes) : M unit := fun s => (Return tt, log (EvWrite data) s).

Definition time_sleep : M unit := fun s => (Return tt, log EvSleep s).

(** [self.ser.read(self.ser.in_waiting)] *)
Definition ser_read_in_waiting : M bytes :=
  fun s =>
    match pending s with
    | [] => (Return [], log (EvRead []) s)
    | r :: rest => (Return r, mkSerial rest (trace s ++ [EvRead r]))
    end.

(** The bytes written to the port, in order. *)
Fixpoint written (t : list event) : list bytes :=
  match t with
  | [] => []
  | EvWrite d :: t' => d :: written t'
  | _ :: t' => written t'
  end.

(** ** SerialBootloaderInterface *)

Definition ACK : bytes := [0x00; 0xcc].

Definition NACK : bytes := [0x00; 0x33].

(** The dict [self.status_val], in insertion order. *)
Definition status_val : list (string * Z) :=
  [ ("COMMAND_RET_SUCCESS"%string, 0x40);
    ("COMMAND_RET_UNKNOWN_CMD"%string, 0x41);
    ("COMMAND_RET_INVALID_CMD"%string, 0x42);
    ("COMMAND_RET_INVALID_ADR"%string, 0x43);
    ("COMMAND_RET_FLASH_FAIL"%string, 0x44) ].

Definition keys (d : list (string * Z)) : list string := map fst d.

Definition values (d : list (string * Z)) : list Z := map snd d.

(** [d[k]] for a key that is present; the lookups in the code are all on
    literal keys of [status_val]. *)
Fixpoint dict_get (d : list (string * Z)) (k : string) : Z :=
  match d with
  | [] => 0
  | (k', v) :: d' => if String.eqb k' k then v else dict_get d' k
  end.

Definition get_chip_id : M bytes :=
  ser_flushInput ;;;
  ser_write [0x03; 0x28; 0x28] ;;;
  time_sleep ;;;
  resp <- ser_read_in_waiting ;;
  ser_write [0xcc] ;;;
  ret resp.

Definition ping : M bytes :=
  ser_flushInput ;;;
  ser_write [0x03; 0x20; 0x20] ;;;
  time_sleep ;;;
  r <- ser_read_in_waiting ;;
  if bytes_eqb r ACK then ret r
  else raise (AssertionError "Ping command was not acknowledged by device").

Definition get_status : M Z :=
  ser_flushInput ;;;
  ser_write [0x03; 0x23; 0x23] ;;;
  time_sleep ;;;
  resp <- ser_read_in_waiting ;;
  ser_write [0xcc] ;;;
  lift (last_item resp).

(** [__init__], after the port has been opened. *)
Definition init : M unit :=
  ser_write [0x55; 0x55] ;;;
  time_sleep ;;;
  r <- ser_read_in_waiting ;;
  if negb (bytes_eqb r ACK) then
    raise (ValueError
      ("Expected the bootloader to reply with 00CC, instead it replied with: " ++ hex r)%string)
  else
    _ <- get_chip_id ;;
    ret tt.

(** The checksum loop of [read_memory_block]:
    [chk = 0; for b in payload: chk += b; chk = chk & 0xff]. *)
Definition checksum (payload : bytes) : Z :=
  Z.land (fold_left (fun chk b => chk + b) payload 0) 0xff.

(** The first half of [read_memory_block]: the frame, before any I/O. *)
Definition build_packet (addr no_of_access : Z) : result bytes :=
  let size := 9 in
  let cmd := 0x2A in
  let access_type := 0x0 in
  match bytearray [cmd] with
  | Raise e => Raise e
  | Return p0 =>
    match to_bytes_4_big addr with
    | Raise e => Raise e
    | Return a =>
      match bytearray [access_type; no_of_access] with
      | Raise e => Raise e
      | Return p2 =>
        let payload := p0 ++ a ++ p2 in
        let chk := checksum payload in
        match bytearray [size; chk] with
        | Raise e => Raise e
        | Return hd => Return (hd ++ payload)
        end
      end
    end
  end.

(** The name looked up for the error message:
    [list(status_val.keys())[list(status_val.values()).index(status)]]. *)
Definition status_name (status : Z) : result string :=
  match list_index (values status_val) status with
  | Raise e => Raise e
  | Return i => Return (nth i (keys status_val) EmptyString)
  end.

Definition read_memory_block (addr no_of_access : Z) : M bytes :=
  packet <- lift (build_packet addr no_of_access) ;;
  ser_flushInput ;;;
  ser_write packet ;;;
  time_sleep ;;;
  resp <- ser_read_in_waiting ;;
  ser_write [0x00; 0xcc] ;;;
  let ind := find 0xcc resp + 3 in
  let resp := slice resp ind (ind + no_of_access) in
  status <- get_status ;;
  if negb (status =? dict_get status_val "COMMAND_RET_SUCCESS") then
    name <- lift (status_name status) ;;
    raise (ValueError ("ERROR! status:" ++ name)%string)
  else if negb (Z.of_nat (List.length resp) =? no_of_access) then
    raise (AssertionError "Did not receive all bytes...")
  else ret resp.

(** The [for i in range(blocks)] loop of [read_memory_region], with its two
    loop-carried variables. *)
Fixpoint read_full_blocks (n : nat) (addr_start : Z) (data : bytes) : M (Z * bytes) :=
  match n with
  | O => ret (addr_start, data)
  | S n' =>
      block <- read_memory_block addr_start 253 ;;
      read_full_blocks n' (addr_start + 253) (data ++ block)
  end.

Definition read_memory_region (addr_start addr_stop : Z) : M bytes :=
  let blocks := (addr_stop - addr_start) / 253 in
  st <- read_full_blocks (Z.to_nat blocks) addr_start [] ;;
  let addr_start := fst st in
  let data := snd st in
  block <- read_memory_block addr_start (addr_stop - addr_start) ;;
  ret (data ++ block).

(** A freshly opened port whose input buffer will hold [replies]. *)
Definition port (replies : list bytes) : Serial := mkSerial replies [].

(** ** One block transaction

    [read_memory_block] is straight-line code: once the frame is built it
    performs the same ten port calls whatever the device answers.  The
    definitions below name that trace and the outcome as a function of the
    two replies; [read_memory_block_eq] relates them to the code. *)

Definition next_reply (s : Serial) : bytes := hd [] (pending s).

Definition second_reply (s : Serial) : bytes := hd [] (tl (pending s)).

Definition block_events (packet r1 r2 : bytes) : list event :=
  [ EvFlushInput; EvWrite packet; EvSleep; EvRead r1; EvWrite [0x00; 0xcc];
    EvFlushInput; EvWrite [0x03; 0x23; 0x23]; EvSleep; EvRead r2; EvWrite [0xcc] ].

Definition after_block (packet : bytes) (s : Serial) : Serial :=
  mkSerial (tl (tl (pending s)))
           (trace s ++ block_events packet (next_reply s) (second_reply s)).

(** The payload that [read_memory_block] cuts out of a response. *)
Definition extract_payload (resp : bytes) (no_of_access : Z) : bytes :=
  let ind := find 0xcc resp + 3 in
  slice resp ind (ind + no_of_access).

(** What [read_memory_block] returns or raises, from the status reply and
    the extracted payload. *)
Definition block_outcome (r2 payload : bytes) (no_of_access : Z) : result bytes :=
  match last_item r2 with
  | Raise e => Raise e
  | Return status =>
      if status =? 0x40 then
        if Z.of_nat (List.length payload) =? no_of_access then Return payload
        else Raise (AssertionError "Did not receive all bytes...")
      else
        match status_name status with
        | Raise e => Raise e
        | Return name => Raise (ValueError ("ERROR! status:" ++ name)%string)
        end
  end.

(** The port state at the moment [read_memory_block] calls [get_status]. *)
Definition before_status (packet : bytes) (s : Serial) : Serial :=
  mkSerial (tl (pending s))
           (trace s ++ [EvFlushInput; EvWrite packet; EvSleep;
                        EvRead (next_reply s); EvWrite [0x00; 0xcc]]).

(** The write that follows the first read of a trace, if any. *)
Fixpoint after_first_read (t : list event) : list event :=
  match t with
  | [] => []
  | EvRead _ :: t' => t'
  | _ :: t' => after_first_read t'
  end.

Definition trailing_ack (t : list event) : option bytes :=
  match after_first_read t with
  | EvWrite d :: _ => Some d
  | _ => None
  end.

(** ** The frame, in the words of the protocol description

    The body is the opcode, the address as four big-endian bytes, the access
    type and the count; the checksum is the sum of the body bytes modulo
    256.  These are compared with what [build_packet] computes. *)

Definition big_endian_4 (addr : Z) : bytes :=
  [ (addr / 2 ^ 24) mod 256; (addr / 2 ^ 16) mod 256; (addr / 2 ^ 8) mod 256; addr mod 256 ].

Definition frame_body (addr count : Z) : bytes :=
  [0x2A] ++ big_endian_4 addr ++ [0x00; count].

Definition sum_bytes (l : bytes) : Z := fold_right Z.add 0 l.

(** The frame of a block read and the writes of one block transaction. *)
Definition block_frame (addr count : Z) : bytes :=
  9 :: checksum (frame_body addr count) :: frame_body addr count.

Definition block_writes (p : Z * Z) : list bytes :=
  [block_frame (fst p) (snd p); [0x00; 0xcc]; [0x03; 0x23; 0x23]; [0xcc]].

(** ** The region read, in the words of the protocol description

    [(stop - start) div 253] full blocks at consecutive addresses, then one
    block for the remainder.  An entry of a plan is (address, count). *)

Definition full_blocks (start : Z) (n : nat) : list (Z * Z) :=
  map (fun i => (start + 253 * Z.of_nat i, 253)) (seq 0 n).

Definition block_plan (start stop : Z) : list (Z * Z) :=
  let blocks := (stop - start) / 253 in
  full_blocks start (Z.to_nat blocks)
  ++ [(start + 253 * blocks, (stop - start) mod 253)].

(** Block reads issued one after the other, in list order. *)
Fixpoint read_blocks (plan : list (Z * Z)) : M (list bytes) :=
  match plan with
  | [] => ret []
  | p :: rest =>
      block <- read_memory_block (fst p) (snd p) ;;
      blocks <- read_blocks rest ;;
      ret (block :: blocks)
  end.

Definition sum_counts (plan : list (Z * Z)) : Z := sum_bytes (map snd plan).

Definition valid_block (p : Z * Z) : Prop :=
  0 <= fst p < 2 ^ 32 /\ 0 <= snd p <= 255.

(** ** A device that answers in full

    It answers every block read with the requested bytes, in the layout of
    the replies captured in the notebook (ACK token, size, checksum, data),
    and every status query with SUCCESS.  [mem] is the content of its
    memory. *)

Definition mem_bytes (mem : Z -> Z) (addr count : Z) : bytes :=
  map (fun i => mem (addr + Z.of_nat i)) (seq 0 (Z.to_nat count)).

Definition data_reply (mem : Z -> Z) (addr count : Z) : bytes :=
  let data := mem_bytes mem addr count in
  [0x00; 0xcc; count + 2; checksum data] ++ data.

Definition status_reply_success : bytes := [0x00; 0xcc; 0x03; 0x40; 0x40].

Definition healthy_replies (mem : Z -> Z) (plan : list (Z * Z)) : list bytes :=
  flat_map (fun p => [data_reply mem (fst p) (snd p); status_reply_success]) plan.

(** ** The framing rule of the protocol description

    A command frame is a size byte, a checksum byte and a body: the size is
    the length of the whole frame and the checksum is the sum of the body
    bytes modulo 256. *)

Definition well_formed_frame (f : bytes) : Prop :=
  match f with
  | size :: chk :: body =>
      size = Z.of_nat (List.length f) /\ chk = sum_bytes body mod 256
  | _ => False
  end.

(** The command frames of a trace: every method writes its frame right
    after [flushInput]. *)
Fixpoint command_frames (t : list event) : list bytes :=
  match t with
  | [] => []
  | EvFlushInput :: t' =>
      match t' with
      | EvWrite d :: _ => d :: command_frames t'
      | _ => command_frames t'
      end
  | _ :: t' => command_frames t'
  end.

(** ** The notebook session

    The cells that use the class: construct the interface, [ping], then
    dump a range with [read_memory_region]. *)

Definition dump_session (addr_start addr_stop : Z) : M bytes :=
  init ;;;
  ping ;;;
  read_memory_region addr_start addr_stop.

(** * The ChipSHOUTER PicoEMP notebook

    The class [ChipShouterPicoEMP] of notebooks/5_ChipSHOUTER-PicoEMP.ipynb
    talks to the pulse generator over a serial port of its own, [self.pico],
    modelled by the same record [Serial].  Its methods raise exceptions the
    bootloader client does not ([OSError], [UnicodeDecodeError], an
    [AssertionError] without message), so they get a result type of their
    own. *)

(** A bytes literal [b'...'] of printable ASCII text. *)
Definition bytes_of_string (s : string) : bytes :=
  map (fun c => Z.of_N (N_of_ascii c)) (list_ascii_of_string s).

(** [b'\r\n'] *)
Definition CRLF : bytes := [13; 10].

(** [sub in xs] on byte strings: [sub] occurs in [xs] as a contiguous run. *)
Fixpoint starts_with (sub xs : bytes) : bool :=
  match sub, xs with
  | [], _ => true
  | b :: sub', x :: xs' => (b =? x) && starts_with sub' xs'
  | _ :: _, [] => false
  end.

Fixpoint bytes_in (sub xs : bytes) : bool :=
  starts_with sub xs
  || match xs with
     | [] => false
     | _ :: xs' => bytes_in sub xs'
     end.

Inductive pico_exn : Type :=
| PicoAssertionError
| OSError (msg : string)
| UnicodeDecodeError.

Inductive pico_result (A : Type) : Type :=
| PicoReturn (a : A)
| PicoRaise (e : pico_exn).
Arguments PicoReturn {A} a.
Arguments PicoRaise {A} e.

Definition PicoM (A : Type) : Type := Serial -> pico_result A * Serial.

Definition pico_ret {A} (a : A) : PicoM A := fun s => (PicoReturn a, s).

Definition pico_raise {A} (e : pico_exn) : PicoM A := fun s => (PicoRaise e, s).

Definition pico_bind {A B} (c : PicoM A) (k : A -> PicoM B) : PicoM B :=
  fun s =>
    match c s with
    | (PicoReturn a, s') => k a s'
    | (PicoRaise e, s') => (PicoRaise e, s')
    end.

Declare Scope pico_scope.
Delimit Scope pico_scope with pico.
Notation "x <- c ;; k" := (pico_bind c (fun x => k))
  (at level 61, c at next level, right associativity) : pico_scope.
Notation "c ;;; k" := (pico_bind c (fun _ => k))
  (at level 61, right associativity) : pico_scope.

(** [self.pico.write(data)], [time.sleep(...)] (its duration is not
    recorded) and [self.pico.read(self.pico.in_waiting)]. *)
Definition pico_write (data : bytes) : PicoM unit :=
  fun s => (PicoReturn tt, log (EvWrite data) s).

Definition pico_sleep : PicoM unit := fun s => (PicoReturn tt, log EvSleep s).

Definition pico_read_in_waiting : PicoM bytes :=
  fun s =>
    match pending s with
    | [] => (PicoReturn [], log (EvRead []) s)
    | r :: rest => (PicoReturn r, mkSerial rest (trace s ++ [EvRead r]))
    end.

(** [ChipShouterPicoEMP.__init__], after the port has been opened. *)
Definition pico_init : PicoM unit :=
  (pico_write CRLF ;;;
   pico_sleep ;;;
   r <- pico_read_in_waiting ;;
   if bytes_in (bytes_of_string "PicoEMP Commands") r then pico_ret tt
   else pico_raise (OSError "Could not connect to ChipShouter PicoEMP :("))%pico.

Definition disable_timeout : PicoM unit :=
  (pico_write (bytes_of_string "disable_timeout" ++ CRLF) ;;;
   pico_sleep ;;;
   r <- pico_read_in_waiting ;;
   if bytes_in (bytes_of_string "Timeout disabled!") r then pico_ret tt
   else pico_raise PicoAssertionError)%pico.

Definition arm : PicoM unit :=
  (pico_write (bytes_of_string "arm" ++ CRLF) ;;;
   pico_sleep ;;;
   r <- pico_read_in_waiting ;;
   if bytes_in (bytes_of_string "Device armed") r then pico_ret tt
   else pico_raise PicoAssertionError)%pico.

Definition disarm : PicoM unit :=
  (pico_write (bytes_of_string "disarm" ++ CRLF) ;;;
   pico_sleep ;;;
   r <- pico_read_in_waiting ;;
   if bytes_in (bytes_of_string "Device disarmed!") r then pico_ret tt
   else pico_raise PicoAssertionError)%pico.

Definition external_hvp : PicoM unit :=
  (pico_write (bytes_of_string "external_hvp" ++ CRLF) ;;;
   pico_sleep ;;;
   r <- pico_read_in_waiting ;;
   if bytes_in (bytes_of_string "External HVP mode active") r then pico_ret tt
   else pico_raise PicoAssertionError)%pico.

(** [print_status] and [setup_external_control].  Whether
    [bytes.decode('utf-8')] accepts a byte string is a parameter,
    [decodable]; the text printed is not modelled. *)
Definition print_status (decodable : bytes -> bool) : PicoM unit :=
  (pico_write (bytes_of_string "status" ++ CRLF) ;;;
   pico_sleep ;;;
   r <- pico_read_in_waiting ;;
   if decodable r then pico_ret tt else pico_raise UnicodeDecodeError)%pico.

Definition setup_external_control (decodable : bytes -> bool) : PicoM unit :=
  (disable_timeout ;;;
   external_hvp ;;;
   print_status decodable)%pico.

(** What the four command methods of the class have in common: the command
    line is written, one read follows, and the method returns exactly when
    the expected text occurs somewhere in what was read. *)
Definition pico_command_spec (f : PicoM unit) (cmd ack : string) : Prop :=
  forall s : Serial,
    let r := next_reply s in
    let s' := mkSerial (tl (pending s))
                (trace s ++ [EvWrite (bytes_of_string cmd ++ CRLF); EvSleep; EvRead r]) in
    snd (f s) = s'
    /\ (fst (f s) = PicoReturn tt <->
        exists pre post, r = pre ++ bytes_of_string ack ++ post)
    /\ (fst (f s) <> PicoReturn tt -> fst (f s) = PicoRaise PicoAssertionError).

(** * The target reset helpers of the PicoEMP notebook

    [reset_dut] and [thorough_reset_dut] act on two globals of the notebook:
    the ChipWhisperer [scope], whose pins power and reset the target, and the
    target's serial port [ser].  [Lab] holds what the port will have
    buffered at each successive read and one trace of the calls on both, in
    program order.  Delays are Python floats, modelled by binary64 floats.
    [time.sleep] refuses some lengths (a negative one or NaN with
    [ValueError], one too large with [OverflowError]); which lengths, and
    with which exception, is the Python runtime's and is a parameter of the
    functions below, [sleep_check]: [None] when the length is accepted. *)

Definition seconds := PrimFloat.float.

(** The float literals of the two functions, by their binary64 value. *)
Definition s_0_05 : seconds := 0x1.999999999999ap-5%float.
Definition s_0_1 : seconds := 0x1.999999999999ap-4%float.
Definition s_0_5 : seconds := 0x1p-1%float.

Inductive lab_event : Type :=
| ScopeNrst (level : string)
| ScopeTargetPwr (on : bool)
| SleepFor (d : seconds)
| OnSer (e : event).

Record Lab : Type := mkLab {
  ser_pending : list bytes;
  lab_trace : list lab_event
}.

Definition lab_log (e : lab_event) (lab : Lab) : Lab :=
  mkLab (ser_pending lab) (lab_trace lab ++ [e]).

(** [ser.read(ser.in_waiting)] *)
Definition lab_ser_read (lab : Lab) : bytes * Lab :=
  match ser_pending lab with
  | [] => ([], lab_log (OnSer (EvRead [])) lab)
  | r :: rest => (r, mkLab rest (lab_trace lab ++ [OnSer (EvRead r)]))
  end.

Definition LabM (A : Type) : Type := Lab -> result A * Lab.

Definition lab_ret {A} (a : A) : LabM A := fun lab => (Return a, lab).

Definition lab_bind {A B} (c : LabM A) (k : A -> LabM B) : LabM B :=
  fun lab =>
    match c lab with
    | (Return a, lab') => k a lab'
    | (Raise e, lab') => (Raise e, lab')
    end.

Declare Scope lab_scope.
Delimit Scope lab_scope with lab.
Notation "x <- c ;; k" := (lab_bind c (fun x => k))
  (at level 61, c at next level, right associativity) : lab_scope.
Notation "c ;;; k" := (lab_bind c (fun _ => k))
  (at level 61, right associativity) : lab_scope.

(** An assignment to a pin of [scope.io], or a call on [ser] that returns
    nothing. *)
Definition lab_do (e : lab_event) : LabM unit := fun lab => (Return tt, lab_log e lab).

(** [time.sleep(d)] *)
Definition lab_sleep (sleep_check : seconds -> option exn) (d : seconds) : LabM unit :=
  fun lab =>
    match sleep_check d with
    | Some e => (Raise e, lab)
    | None => (Return tt, lab_log (SleepFor d) lab)
    end.

Definition lab_read : LabM bytes :=
  fun lab => let (r, lab') := lab_ser_read lab in (Return r, lab').

Definition reset_dut (sleep_check : seconds -> option exn) (delay : seconds)
  : LabM unit :=
  (lab_do (ScopeNrst "low") ;;;
   lab_do (ScopeTargetPwr false) ;;;
   lab_sleep sleep_check delay ;;;
   lab_do (ScopeTargetPwr true) ;;;
   lab_do (ScopeNrst "high") ;;;
   lab_sleep sleep_check s_0_05 ;;;
   lab_do (OnSer EvFlushInput) ;;;
   lab_do (OnSer (EvWrite (bytes_of_string "d"))))%lab.

(** [int.from_bytes(bs, 'little')] *)
Fixpoint int_from_bytes_little (bs : bytes) : Z :=
  match bs with
  | [] => 0
  | b :: bs' => b + 256 * int_from_bytes_little bs'
  end.

(** The [while] loop of [thorough_reset_dut].  [fuel] bounds the number of
    iterations; [None] means the bound was reached with the loop still
    running. *)
Fixpoint thorough_reset_loop (sleep_check : seconds -> option exn) (fuel : nat)
    (delay : seconds) (ret : bytes) (lab : Lab) : option (result unit * Lab) :=
  if negb (int_from_bytes_little ret =? 10000) then
    match fuel with
    | O => None
    | S fuel' =>
        let delay := PrimFloat.add delay s_0_5 in
        match (reset_dut sleep_check delay ;;;
               lab_do (OnSer (EvWrite [0xAA])) ;;;
               lab_sleep sleep_check s_0_1 ;;;
               lab_read)%lab lab with
        | (Return ret', lab') => thorough_reset_loop sleep_check fuel' delay ret' lab'
        | (Raise e, lab') => Some (Raise e, lab')
        end
    end
  else Some (Return tt, lab).

Definition thorough_reset_dut (sleep_check : seconds -> option exn) (fuel : nat)
    (delay : seconds) (lab : Lab) : option (result unit * Lab) :=
  match (reset_dut sleep_check delay ;;;
         lab_do (OnSer EvFlushInput) ;;;
         lab_do (OnSer (EvWrite [0xAA])) ;;;
         lab_sleep sleep_check s_0_1 ;;;
         lab_read)%lab lab with
  | (Return ret, lab') => thorough_reset_loop sleep_check fuel delay ret lab'
  | (Raise e, lab') => Some (Raise e, lab')
  end.

(** The test that ends the loop of [thorough_reset_dut]. *)
Definition alive (r : bytes) : bool := int_from_bytes_little r =? 10000.

(** How the experiment cell of the notebook sorts the reply to one attempt:
    the expected counter value, no answer at all, or anything else. *)
Inductive attempt : Type := Expected | Crash | Fault.

Definition classify (ret : bytes) : attempt :=
  if negb (bytes_eqb ret [0x10; 0x27; 0x00; 0x00]) then
    if bytes_eqb ret [] then Crash else Fault
  else Expected.

(** The calls of one [reset_dut] and of one probe of the target, and the
    delay of the [i]-th reset of a [thorough_reset_dut]. *)
Definition reset_events (d : seconds) : list lab_event :=
  [ ScopeNrst "low"; ScopeTargetPwr false; SleepFor d; ScopeTargetPwr true;
    ScopeNrst "high"; SleepFor s_0_05; OnSer EvFlushInput;
    OnSer (EvWrite (bytes_of_string "d")) ].

Definition probe_events (r : bytes) : list lab_event :=
  [ OnSer (EvWrite [0xAA]); SleepFor s_0_1; OnSer (EvRead r) ].

Definition retry_delay (delay : seconds) (i : nat) : seconds :=
  Nat.iter i (fun d => PrimFloat.add d s_0_5) delay.

(** The calls of the first [n] attempts of a [thorough_reset_dut]: each is
    a reset and a probe, and the first probe alone follows a second
    [flushInput]. *)
Definition completed_attempts (delay : seconds) (replies : list bytes) (n : nat)
  : list lab_event :=
  match n with
  | O => []
  | S n' =>
      reset_events delay ++ [OnSer EvFlushInput] ++ probe_events (nth 0 replies [])
      ++ flat_map (fun i => reset_events (retry_delay delay i)
                            ++ probe_events (nth i replies []))
                  (seq 1 n')
  end.

(** The calls of a reset that ends at its first sleep. *)
Definition aborted_reset_events : list lab_event :=
  [ ScopeNrst "low"; ScopeTargetPwr false ].

(** A [sleep_check] for the witnesses: it refuses a negative length and
    NaN, as [time.sleep] does, and takes every other length. *)
Definition refuse_negative (d : seconds) : option exn :=
  if PrimFloat.ltb d 0%float then
    Some (ValueError "sleep length must be non-negative")
  else if PrimFloat.eqb d d then None
  else Some (ValueError "Invalid value NaN (not a number)").

(** * Properties *)

(** ** Runs on concrete replies *)

Example handshake_ok :
  init (port [[0x00; 0xcc]; [0x00; 0xcc; 0x06; 0x42; 0xb0; 0x02; 0x90; 0x00]])
  = (Return tt,
     mkSerial [] [EvWrite [0x55; 0x55]; EvSleep; EvRead [0x00; 0xcc];
                  EvFlushInput; EvWrite [0x03; 0x28; 0x28]; EvSleep;
                  EvRead [0x00; 0xcc; 0x06; 0x42; 0xb0; 0x02; 0x90; 0x00];
                  EvWrite [0xcc]]).
Proof. reflexivity. Qed.

Example chip_id_hex :
  hex [0x00; 0xcc; 0x06; 0x42; 0xb0; 0x02; 0x90; 0x00] = "00cc0642b0029000"%string.
Proof. reflexivity. Qed.

Example block_run :
  read_memory_block 0x10000000 3
    (port [[0x00; 0xcc; 0x05; 0x06; 1; 2; 3]; [0x00; 0xcc; 0x03; 0x40; 0x40]])
  = (Return [1; 2; 3],
     mkSerial [] [EvFlushInput; EvWrite [9; 0x3d; 0x2A; 0x10; 0; 0; 0; 0; 3]; EvSleep;
                  EvRead [0x00; 0xcc; 0x05; 0x06; 1; 2; 3]; EvWrite [0x00; 0xcc];
                  EvFlushInput; EvWrite [0x03; 0x23; 0x23]; EvSleep;
                  EvRead [0x00; 0xcc; 0x03; 0x40; 0x40]; EvWrite [0xcc]]).
Proof. reflexivity. Qed.

(** ** One block transaction, unfolded *)

Lemma get_status_eq (s : Serial) :
  get_status s =
  (last_item (next_reply s),
   mkSerial (tl (pending s))
            (trace s ++ [EvFlushInput; EvWrite [0x03; 0x23; 0x23]; EvSleep;
                         EvRead (next_reply s); EvWrite [0xcc]])).
Proof.
  destruct s as [p t]; unfold get_status, bind, ser_flushInput, ser_write,
    time_sleep, ser_read_in_waiting, lift, log, next_reply.
  destruct p as [|r p]; cbn [pending trace hd tl];
    repeat rewrite <- app_assoc; reflexivity.
Qed.

Lemma read_memory_block_raise (addr n : Z) (s : Serial) (e : exn) :
  build_packet addr n = Raise e ->
  read_memory_block addr n s = (Raise e, s).
Proof.
  intros H; unfold read_memory_block, bind, lift; rewrite H; reflexivity.
Qed.

Lemma read_memory_block_eq (addr n : Z) (s : Serial) (packet : bytes) :
  build_packet addr n = Return packet ->
  read_memory_block addr n s =
  (block_outcome (second_reply s) (extract_payload (next_reply s) n) n,
   after_block packet s).
Proof.
  intros H. unfold read_memory_block.
  unfold bind at 1. unfold lift at 1. rewrite H.
  unfold bind at 1, ser_flushInput at 1.
  unfold bind at 1, ser_write at 1.
  unfold bind at 1, time_sleep at 1.
  unfold bind at 1, ser_read_in_waiting at 1.
  unfold bind at 1, ser_write at 1.
  unfold bind at 1. 
  destruct s as [p t]. unfold after_block, block_outcome, block_events,
    extract_payload, next_reply, second_reply, log.
  destruct p as [|r1 p]; cbn [pending trace hd tl]; rewrite get_status_eq;
    unfold next_reply; cbn [pending trace hd tl];
    repeat rewrite <- app_assoc; cbn [app].
  - cbn [last_item]. reflexivity.
  - destruct (last_item (hd [] p)) as [status|e]; [|reflexivity].
    change (dict_get status_val "COMMAND_RET_SUCCESS") with 0x40.
    destruct (status =? 0x40); cbn [negb].
    + destruct (Z.of_nat _ =? n); reflexivity.
    + unfold bind, lift, raise. destruct (status_name status); reflexivity.
Qed.

(** ** The command frame *)

Lemma fold_left_add_sum (l : bytes) (acc : Z) :
  fold_left (fun chk b => chk + b) l acc = acc + sum_bytes l.
Proof.
  revert acc; induction l as [|b l IH]; intros acc; cbn [fold_left sum_bytes fold_right].
  - lia.
  - rewrite IH. unfold sum_bytes. lia.
Qed.

Lemma land_255 (x : Z) : Z.land x 255 = x mod 256.
Proof. change 255 with (Z.ones 8). rewrite Z.land_ones by lia. reflexivity. Qed.

Lemma checksum_mod (l : bytes) : checksum l = sum_bytes l mod 256.
Proof.
  unfold checksum. rewrite fold_left_add_sum. change 0xff with 255.
  rewrite land_255. reflexivity.
Qed.

Lemma checksum_is_byte (l : bytes) : is_byte (checksum l) = true.
Proof.
  rewrite checksum_mod. unfold is_byte.
  pose proof (Z.mod_pos_bound (sum_bytes l) 256 ltac:(lia)).
  apply andb_true_intro; split; [apply Z.leb_le | apply Z.ltb_lt]; lia.
Qed.

Lemma to_bytes_4_big_ok (addr : Z) :
  0 <= addr < 2 ^ 32 -> to_bytes_4_big addr = Return (big_endian_4 addr).
Proof.
  intros [H0 H1]. unfold to_bytes_4_big, big_endian_4.
  destruct (Z.ltb_spec addr 0); [lia|].
  destruct (Z.leb_spec (2 ^ 32) addr); [lia|].
  rewrite !land_255, !Z.shiftr_div_pow2 by lia. reflexivity.
Qed.

Lemma big_endian_4_value (addr : Z) :
  0 <= addr < 2 ^ 32 ->
  match big_endian_4 addr with
  | [b3; b2; b1; b0] => addr = b3 * 2 ^ 24 + b2 * 2 ^ 16 + b1 * 2 ^ 8 + b0
  | _ => False
  end.
Proof.
  intros H. unfold big_endian_4.
  change (2 ^ 24) with (256 * 256 * 256). change (2 ^ 16) with (256 * 256).
  change (2 ^ 8) with 256. change (2 ^ 32) with 4294967296 in H.
  rewrite <- !Z.div_div by lia.
  pose proof (Z.div_mod addr 256 ltac:(lia)).
  pose proof (Z.div_mod (addr / 256) 256 ltac:(lia)).
  pose proof (Z.div_mod (addr / 256 / 256) 256 ltac:(lia)).
  assert (0 <= addr / 256 / 256 / 256 < 256).
  { split; [repeat apply Z.div_pos; lia|].
    repeat (apply Z.div_lt_upper_bound; [lia|]). lia. }
  rewrite (Z.mod_small (addr / 256 / 256 / 256) 256) by assumption.
  pose proof (Z.div_mod (addr / 256 / 256 / 256) 256 ltac:(lia)).
  lia.
Qed.

Lemma build_packet_ok (addr n : Z) :
  0 <= addr < 2 ^ 32 -> 0 <= n <= 255 ->
  build_packet addr n =
  Return (9 :: checksum (frame_body addr n) :: frame_body addr n).
Proof.
  intros Ha Hn. unfold build_packet.
  change (bytearray [42]) with (Return (A:=bytes) [42]).
  rewrite (to_bytes_4_big_ok _ Ha).
  unfold bytearray at 1. cbn [forallb].
  replace (is_byte n) with true
    by (symmetry; unfold is_byte; apply andb_true_intro; split;
        [apply Z.leb_le | apply Z.ltb_lt]; lia).
  change (is_byte 0) with true. cbn [andb].
  unfold bytearray. cbn [forallb].
  change ([42] ++ big_endian_4 addr ++ [0; n]) with (frame_body addr n).
  rewrite checksum_is_byte. reflexivity.
Qed.

Lemma build_packet_bad_count (addr n : Z) :
  n < 0 \/ 255 < n ->
  build_packet addr n =
  match to_bytes_4_big addr with
  | Raise e => Raise e
  | Return _ => Raise (ValueError "byte must be in range(0, 256)")
  end.
Proof.
  intros Hn. unfold build_packet.
  change (bytearray [42]) with (Return (A:=bytes) [42]).
  destruct (to_bytes_4_big addr) as [a|e]; [|reflexivity].
  unfold bytearray at 1. cbn [forallb].
  replace (is_byte n) with false; [reflexivity|].
  symmetry; unfold is_byte. apply andb_false_iff.
  destruct Hn; [left; apply Z.leb_gt | right; apply Z.ltb_ge]; lia.
Qed.

Lemma written_app (t1 t2 : list event) :
  written (t1 ++ t2) = written t1 ++ written t2.
Proof.
  induction t1 as [|e t1 IH]; [reflexivity|].
  destruct e; cbn [app written]; rewrite IH; reflexivity.
Qed.

Lemma read_memory_block_trace (addr n : Z) (s : Serial) (packet : bytes) :
  build_packet addr n = Return packet ->
  trace (snd (read_memory_block addr n s)) =
  trace s ++ block_events packet (next_reply s) (second_reply s).
Proof. intros H. rewrite (read_memory_block_eq _ _ _ _ H). reflexivity. Qed.

(** *** C2 *)

(** At address 0x10000000 and count 253 the size byte is 9 while the body
    has 7 bytes. *)
Lemma C2_size_byte_counterexample :
  build_packet 0x10000000 253 =
    Return [9; 0x37; 0x2A; 0x10; 0x00; 0x00; 0x00; 0x00; 0xFD]
  /\ frame_body 0x10000000 253 = [0x2A; 0x10; 0x00; 0x00; 0x00; 0x00; 0xFD]
  /\ build_packet 0x10000000 253 <>
     Return (Z.of_nat (List.length (frame_body 0x10000000 253))
             :: sum_bytes (frame_body 0x10000000 253) mod 256
             :: frame_body 0x10000000 253).
Proof. split; [reflexivity | split; [reflexivity | discriminate]]. Qed.

(** C2 (as amended): for every 32-bit address and every count in 1..253 the
    frame that [read_memory_block] writes to the port is the 7-byte body
    [0x2A, address big-endian, 0x00, count] prefixed by the constant size
    byte 9, which is the length of the whole frame (body plus the two prefix
    bytes), and by the checksum, the sum of the body bytes modulo 256. *)
Theorem C2_frame_layout (addr count : Z) (s : Serial) :
  0 <= addr < 2 ^ 32 -> 1 <= count <= 253 ->
  let body := frame_body addr count in
  let frame := 9 :: sum_bytes body mod 256 :: body in
  build_packet addr count = Return frame
  /\ body = [0x2A] ++ big_endian_4 addr ++ [0x00; count]
  /\ match big_endian_4 addr with
     | [b3; b2; b1; b0] => addr = b3 * 2 ^ 24 + b2 * 2 ^ 16 + b1 * 2 ^ 8 + b0
     | _ => False
     end
  /\ List.length body = 7%nat
  /\ Z.of_nat (List.length frame) = 9
  /\ trace (snd (read_memory_block addr count s)) =
     trace s ++ block_events frame (next_reply s) (second_reply s)
  /\ written (trace (snd (read_memory_block addr count s))) =
     written (trace s) ++ [frame; [0x00; 0xcc]; [0x03; 0x23; 0x23]; [0xcc]].
Proof.
  intros Ha Hc body frame.
  assert (Hp : build_packet addr count = Return frame).
  { unfold frame, body. rewrite <- checksum_mod. apply build_packet_ok; lia. }
  split; [assumption|]. split; [reflexivity|].
  split; [apply big_endian_4_value; exact Ha|]. split; [reflexivity|].
  split; [reflexivity|]. split.
  - apply read_memory_block_trace; assumption.
  - rewrite (read_memory_block_trace _ _ _ _ Hp), written_app. reflexivity.
Qed.

Lemma C2_frame_layout_witness :
  build_packet 0x10000000 253 =
  Return (9 :: sum_bytes (frame_body 0x10000000 253) mod 256 :: frame_body 0x10000000 253).
Proof.
  apply (C2_frame_layout 0x10000000 253 (port [])); lia.
Defined.

(** *** C5 *)

(** A count of 254 is not rejected: the frame goes out on the port. *)
Lemma C5_count_254_counterexample :
  253 < 254
  /\ written (trace (snd (read_memory_block 0x10000000 254 (port [])))) =
     [ [9; 0x38; 0x2A; 0x10; 0x00; 0x00; 0x00; 0x00; 0xFE];
       [0x00; 0xcc]; [0x03; 0x23; 0x23]; [0xcc] ]
  /\ written (trace (snd (read_memory_block 0x10000000 254 (port [])))) <> [].
Proof. split; [lia | split; [reflexivity | discriminate]]. Qed.

(** C5 (as amended): for a count above 253 there is no check of the
    count against 253.  A count greater than 255 makes [read_memory_block]
    raise while it builds the frame, before any call on the port: the port
    state, and so the list of bytes written, is unchanged (with a 32-bit
    address the exception is the [ValueError] of [bytearray]).  A count of
    254 or 255 is not rejected: with a 32-bit address its frame is written
    to the port, followed by the ACK token and the status query. *)
Theorem C5_count_above_253 (addr c : Z) (s : Serial) :
  253 < c ->
  (255 < c ->
   exists e,
     read_memory_block addr c s = (Raise e, s)
     /\ written (trace (snd (read_memory_block addr c s))) = written (trace s)
     /\ (0 <= addr < 2 ^ 32 -> e = ValueError "byte must be in range(0, 256)"))
  /\ (c <= 255 -> 0 <= addr < 2 ^ 32 ->
      written (trace (snd (read_memory_block addr c s))) =
      written (trace s) ++ block_writes (addr, c)).
Proof.
  intros Hc. split.
  - intros Hbig.
    pose proof (build_packet_bad_count addr c (or_intror Hbig)) as Hb.
    destruct (to_bytes_4_big addr) as [a|e] eqn:Ea.
    + exists (ValueError "byte must be in range(0, 256)").
      rewrite (read_memory_block_raise _ _ _ _ Hb).
      split; [reflexivity | split; [reflexivity | intros _; reflexivity]].
    + exists e. rewrite (read_memory_block_raise _ _ _ _ Hb).
      split; [reflexivity | split; [reflexivity |]].
      intros Ha. rewrite (to_bytes_4_big_ok _ Ha) in Ea. discriminate.
  - intros Hle Ha.
    rewrite (read_memory_block_trace _ _ _ _ (build_packet_ok addr c Ha ltac:(lia))).
    rewrite written_app. reflexivity.
Qed.

Lemma C5_count_above_253_witness :
  (exists e,
     read_memory_block 0x10000000 256 (port []) = (Raise e, port [])
     /\ written (trace (snd (read_memory_block 0x10000000 256 (port [])))) =
        written (trace (port []))
     /\ (0 <= 0x10000000 < 2 ^ 32 -> e = ValueError "byte must be in range(0, 256)"))
  /\ written (trace (snd (read_memory_block 0x10000000 255 (port [])))) =
     written (trace (port [])) ++ block_writes (0x10000000, 255).
Proof.
  split.
  - apply (C5_count_above_253 0x10000000 256 (port [])); lia.
  - apply (C5_count_above_253 0x10000000 255 (port [])); lia.
Defined.

(** *** C8 *)

(** The write that follows the read of the response carries two bytes. *)
Lemma C8_two_byte_ack_counterexample :
  let t := trace (snd (read_memory_block 0x10000000 3
             (port [[0x00; 0xcc; 0x05; 0x06; 1; 2; 3]; [0x00; 0xcc; 0x03; 0x40; 0x40]]))) in
  trailing_ack t = Some [0x00; 0xcc]
  /\ trailing_ack t <> Some [0xcc]
  /\ (forall b, trailing_ack t <> Some [b]).
Proof. split; [reflexivity | split; [discriminate | intros b; discriminate]]. Qed.

(** C8 (as amended): in every [read_memory_block] transaction whose frame
    was built, the call that follows the read of the buffered response is
    one write of the two-byte ACK token 0x00 0xCC; the next calls belong to
    the status query. *)
Theorem C8_trailing_ack_token (addr n : Z) (s : Serial) (packet : bytes) :
  build_packet addr n = Return packet ->
  trace (snd (read_memory_block addr n s)) =
    trace s
    ++ [EvFlushInput; EvWrite packet; EvSleep; EvRead (next_reply s)]
    ++ [EvWrite ACK]
    ++ [EvFlushInput; EvWrite [0x03; 0x23; 0x23]; EvSleep;
        EvRead (second_reply s); EvWrite [0xcc]]
  /\ trailing_ack (block_events packet (next_reply s) (second_reply s)) = Some ACK
  /\ List.length ACK = 2%nat.
Proof.
  intros H. rewrite (read_memory_block_trace _ _ _ _ H).
  split; [reflexivity | split; reflexivity].
Qed.

Lemma C8_trailing_ack_token_witness :
  trailing_ack
    (block_events [9; 0x37; 0x2A; 0x10; 0x00; 0x00; 0x00; 0x00; 0xFD]
       (next_reply (port [])) (second_reply (port []))) = Some ACK.
Proof.
  apply (C8_trailing_ack_token 0x10000000 253 (port [])). reflexivity.
Defined.

(** ** Facts about the Python helpers *)

Lemma bytes_eqb_eq (xs ys : bytes) : bytes_eqb xs ys = true <-> xs = ys.
Proof.
  revert ys; induction xs as [|x xs IH]; intros [|y ys]; cbn [bytes_eqb];
    try (split; [discriminate | discriminate]); [tauto|].
  rewrite andb_true_iff, Z.eqb_eq, IH. split.
  - intros [-> ->]; reflexivity.
  - intros E; injection E; auto.
Qed.

Lemma find_from_absent (b : Z) (xs : bytes) (i : Z) :
  ~ In b xs -> find_from b xs i = -1.
Proof.
  revert i; induction xs as [|x xs IH]; intros i Hn; cbn [find_from]; [reflexivity|].
  destruct (Z.eqb_spec x b) as [->|_].
  - exfalso; apply Hn; left; reflexivity.
  - apply IH. intros Hin; apply Hn; right; exact Hin.
Qed.

Lemma find_from_first (b : Z) (pre rest : bytes) (i : Z) :
  ~ In b pre -> find_from b (pre ++ b :: rest) i = i + Z.of_nat (List.length pre).
Proof.
  revert i; induction pre as [|x pre IH]; intros i Hn; cbn [app find_from List.length].
  - rewrite Z.eqb_refl. lia.
  - destruct (Z.eqb_spec x b) as [->|_].
    + exfalso; apply Hn; left; reflexivity.
    + rewrite IH by (intros Hin; apply Hn; right; exact Hin). lia.
Qed.

Lemma slice_nonneg (xs : bytes) (lo n : Z) :
  0 <= lo -> 0 <= n ->
  slice xs lo (lo + n) = firstn (Z.to_nat n) (skipn (Z.to_nat lo) xs).
Proof.
  intros Hlo Hn. unfold slice, clamp_index.
  destruct (Z.ltb_spec lo 0); [lia|].
  destruct (Z.ltb_spec (lo + n) 0); [lia|].
  set (len := Z.of_nat (List.length xs)).
  destruct (Z.le_gt_cases len lo) as [Hge|Hlt].
  - rewrite (Z.min_r lo len) by lia.
    rewrite !skipn_all2 by (fold bytes in *; lia).
    rewrite !firstn_nil. reflexivity.
  - rewrite (Z.min_l lo len) by lia.
    assert (Hl : List.length (skipn (Z.to_nat lo) xs) = Z.to_nat (len - lo))
      by (rewrite length_skipn; unfold len; lia).
    destruct (Z.le_gt_cases (lo + n) len).
    + rewrite Z.min_l by lia. f_equal. lia.
    + rewrite Z.min_r by lia. rewrite <- Hl.
      rewrite firstn_all. symmetry. apply firstn_all2. lia.
Qed.

Lemma build_packet_inv (addr n : Z) (packet : bytes) :
  build_packet addr n = Return packet ->
  0 <= addr < 2 ^ 32 /\ 0 <= n <= 255.
Proof.
  intros H.
  assert (Ha : 0 <= addr < 2 ^ 32).
  { unfold build_packet in H. change (bytearray [42]) with (Return (A:=bytes) [42]) in H.
    unfold to_bytes_4_big in H.
    destruct (Z.ltb_spec addr 0); [discriminate|].
    destruct (Z.leb_spec (2 ^ 32) addr); [discriminate|]. lia. }
  split; [exact Ha|].
  destruct (Z.lt_ge_cases n 0) as [Hneg|Hpos].
  - rewrite (build_packet_bad_count addr n (or_introl Hneg)) in H.
    destruct (to_bytes_4_big addr); discriminate.
  - destruct (Z.le_gt_cases n 255) as [Hle|Hgt]; [lia|].
    rewrite (build_packet_bad_count addr n (or_intror Hgt)) in H.
    destruct (to_bytes_4_big addr); discriminate.
Qed.

Lemma extract_payload_marker (pre rest : bytes) (n : Z) :
  ~ In 0xcc pre -> 0 <= n ->
  extract_payload (pre ++ 0xcc :: rest) n = firstn (Z.to_nat n) (skipn 2 rest).
Proof.
  intros Hpre Hn. unfold extract_payload, find.
  rewrite (find_from_first _ _ _ _ Hpre).
  rewrite slice_nonneg by lia.
  replace (Z.to_nat (0 + Z.of_nat (List.length pre) + 3))
    with (List.length pre + 3)%nat by lia.
  f_equal. rewrite skipn_app.
  rewrite skipn_all2 by lia.
  replace (List.length pre + 3 - List.length pre)%nat with 3%nat by lia.
  reflexivity.
Qed.

Lemma extract_payload_no_marker (resp : bytes) (n : Z) :
  ~ In 0xcc resp -> 0 <= n ->
  extract_payload resp n = firstn (Z.to_nat n) (skipn 2 resp).
Proof.
  intros Hno Hn. unfold extract_payload, find.
  rewrite (find_from_absent _ _ _ Hno).
  change (-1 + 3) with 2. rewrite slice_nonneg by lia. reflexivity.
Qed.

(** *** C3 *)

(** C3: the handshake succeeds exactly when the bytes read after the sync
    pattern are the ACK token 0x00 0xCC.  Any other reply, the empty one
    included, makes construction raise the [ValueError] whose message ends
    with the reply in hexadecimal; at that point the port has seen one write
    of the sync pattern and one read, and nothing more. *)
Theorem C3_handshake (s : Serial) :
  let r := next_reply s in
  let s1 := mkSerial (tl (pending s))
                     (trace s ++ [EvWrite [0x55; 0x55]; EvSleep; EvRead r]) in
  (fst (init s) = Return tt <-> r = [0x00; 0xcc])
  /\ (r = [0x00; 0xcc] -> init s = (Return tt, snd (get_chip_id s1)))
  /\ (r <> [0x00; 0xcc] ->
      init s =
      (Raise (ValueError
         ("Expected the bootloader to reply with 00CC, instead it replied with: "
          ++ hex r)%string), s1)
      /\ written (trace (snd (init s))) = written (trace s) ++ [[0x55; 0x55]])
  /\ (r = [] ->
      init s =
      (Raise (ValueError
         "Expected the bootloader to reply with 00CC, instead it replied with: "), s1)).
Proof.
  intros r s1.
  assert (Hinit : init s =
            if bytes_eqb r ACK then (Return tt, snd (get_chip_id s1))
            else (Raise (ValueError
                   ("Expected the bootloader to reply with 00CC, instead it replied with: "
                    ++ hex r)%string), s1)).
  { unfold s1, r, next_reply. destruct s as [p t].
    unfold init, bind, ser_write, time_sleep, ser_read_in_waiting, log.
    destruct p as [|r0 p]; cbn [pending trace hd tl];
      repeat rewrite <- app_assoc; cbn [app].
    - reflexivity.
    - destruct (bytes_eqb r0 ACK); cbn [negb]; [|reflexivity].
      unfold get_chip_id, bind, ser_flushInput, ser_write, time_sleep,
        ser_read_in_waiting, ret, log.
      destruct p; reflexivity. }
  assert (Hack : r = [0x00; 0xcc] -> bytes_eqb r ACK = true)
    by (intros E; apply bytes_eqb_eq; exact E).
  assert (Hnack : r <> [0x00; 0xcc] -> bytes_eqb r ACK = false).
  { intros N. destruct (bytes_eqb r ACK) eqn:E; [|reflexivity].
    exfalso; apply N; apply bytes_eqb_eq; exact E. }
  split; [|split; [|split]].
  - rewrite Hinit. split.
    + destruct (bytes_eqb r ACK) eqn:E; [intros _; apply bytes_eqb_eq; exact E|].
      cbn [fst]; discriminate.
    + intros E. rewrite (Hack E). reflexivity.
  - intros E. rewrite Hinit, (Hack E). reflexivity.
  - intros N. rewrite Hinit, (Hnack N). split; [reflexivity|].
    cbn [snd]. unfold s1. cbn [trace]. rewrite written_app. reflexivity.
  - intros E. rewrite Hinit, Hnack by (rewrite E; discriminate).
    rewrite E. reflexivity.
Qed.

Lemma C3_handshake_witness :
  init (port [[0x00; 0x33]]) =
  (Raise (ValueError
     "Expected the bootloader to reply with 00CC, instead it replied with: 0033"),
   mkSerial [] [EvWrite [0x55; 0x55]; EvSleep; EvRead [0x00; 0x33]])
  /\ init (port []) =
     (Raise (ValueError
        "Expected the bootloader to reply with 00CC, instead it replied with: "),
      mkSerial [] [EvWrite [0x55; 0x55]; EvSleep; EvRead []])
  /\ fst (init (port [[0x00; 0xcc]])) = Return tt.
Proof.
  split; [|split].
  - apply (C3_handshake (port [[0x00; 0x33]])). discriminate.
  - apply (C3_handshake (port [])). reflexivity.
  - apply (C3_handshake (port [[0x00; 0xcc]])). reflexivity.
Defined.

Lemma last_cons_default (ys : bytes) (y d : Z) : last (y :: ys) d = last ys y.
Proof.
  revert y d; induction ys as [|z zs IH]; intros y d; [reflexivity|].
  change (last (y :: z :: zs) d) with (last (z :: zs) d).
  rewrite (IH z d), (IH z y). reflexivity.
Qed.

Lemma last_item_nonempty (r : bytes) :
  r <> [] -> last_item r = Return (last r 0).
Proof.
  destruct r as [|y ys]; [contradiction|]. intros _.
  cbn [last_item]. rewrite last_cons_default. reflexivity.
Qed.

(** *** C10 *)

(** C10: [get_status] returns the last byte of the response when the
    response is not empty; on an empty response it raises [IndexError] from
    the last-element access, after the status frame and the ACK byte have
    been written.  No other exception is raised. *)
Theorem C10_get_status_last_byte (s : Serial) :
  let r := next_reply s in
  let s' := mkSerial (tl (pending s))
              (trace s ++ [EvFlushInput; EvWrite [0x03; 0x23; 0x23]; EvSleep;
                           EvRead r; EvWrite [0xcc]]) in
  (forall xs x, r = xs ++ [x] -> get_status s = (Return x, s'))
  /\ (r <> [] -> exists x, get_status s = (Return x, s') /\ x = last r 0)
  /\ (r = [] -> get_status s = (Raise (IndexError "list index out of range"), s')).
Proof.
  intros r s'. rewrite get_status_eq. fold r. fold s'.
  split; [|split].
  - intros xs x E. rewrite E. f_equal.
    destruct xs as [|y ys]; [reflexivity|].
    cbn [app last_item]. rewrite last_last. reflexivity.
  - intros N. exists (last r 0). split; [|reflexivity].
    rewrite (last_item_nonempty r N). reflexivity.
  - intros E. rewrite E. reflexivity.
Qed.

Lemma C10_get_status_last_byte_witness :
  get_status (port [[0x00; 0xcc; 0x03; 0x40; 0x40]]) =
    (Return 0x40,
     mkSerial [] [EvFlushInput; EvWrite [0x03; 0x23; 0x23]; EvSleep;
                  EvRead [0x00; 0xcc; 0x03; 0x40; 0x40]; EvWrite [0xcc]])
  /\ get_status (port [[]]) =
    (Raise (IndexError "list index out of range"),
     mkSerial [] [EvFlushInput; EvWrite [0x03; 0x23; 0x23]; EvSleep;
                  EvRead []; EvWrite [0xcc]]).
Proof.
  split.
  - apply (proj1 (C10_get_status_last_byte (port [[0x00; 0xcc; 0x03; 0x40; 0x40]]))
             [0x00; 0xcc; 0x03; 0x40] 0x40). reflexivity.
  - apply (C10_get_status_last_byte (port [[]])). reflexivity.
Defined.

(** ** The status check *)

Lemma get_status_before_status (packet : bytes) (s : Serial) :
  get_status (before_status packet s) =
  (last_item (second_reply s), after_block packet s).
Proof.
  rewrite get_status_eq. unfold before_status, after_block, block_events,
    next_reply, second_reply. cbn [pending trace].
  rewrite <- app_assoc. reflexivity.
Qed.

Lemma status_name_cases (status : Z) :
  (exists name, In (name, status) status_val /\ status_name status = Return name)
  \/ (~ In status (values status_val)
      /\ status_name status =
         Raise (ValueError (str_int status ++ " is not in list")%string)).
Proof.
  unfold status_name, list_index.
  change (values status_val) with [0x40; 0x41; 0x42; 0x43; 0x44].
  cbn [index_from].
  destruct (Z.eqb_spec 0x40 status) as [<-|N0];
    [left; eexists; split; [|reflexivity]; cbn; tauto|].
  destruct (Z.eqb_spec 0x41 status) as [<-|N1];
    [left; eexists; split; [|reflexivity]; cbn; tauto|].
  destruct (Z.eqb_spec 0x42 status) as [<-|N2];
    [left; eexists; split; [|reflexivity]; cbn; tauto|].
  destruct (Z.eqb_spec 0x43 status) as [<-|N3];
    [left; eexists; split; [|reflexivity]; cbn; tauto|].
  destruct (Z.eqb_spec 0x44 status) as [<-|N4];
    [left; eexists; split; [|reflexivity]; cbn; tauto|].
  right. split; [|reflexivity].
  cbn [In]. intros [H|[H|[H|[H|[H|[]]]]]]; congruence.
Qed.

Lemma status_val_name_unique (name name' : string) (status : Z) :
  In (name, status) status_val -> In (name', status) status_val -> name = name'.
Proof.
  unfold status_val. cbn [In].
  intros [H|[H|[H|[H|[H|[]]]]]] [H'|[H'|[H'|[H'|[H'|[]]]]]];
    inversion H; subst; inversion H'; reflexivity.
Qed.

(** *** C4 *)

(** A status reply that ends in 0xCC, with the payload received in full:
    the exception is the [ValueError] of the failed table lookup, and its
    message is none of the four status names. *)
Lemma C4_status_outside_table_counterexample :
  let s := port [[0x00; 0xcc; 0x05; 0x06; 1; 2; 3]; [0x00; 0xcc]] in
  fst (get_status (before_status [9; 0x3d; 0x2A; 0x10; 0; 0; 0; 0; 3] s)) = Return 0xcc
  /\ 0xcc <> 0x40
  /\ extract_payload (next_reply s) 3 = [1; 2; 3]
  /\ fst (read_memory_block 0x10000000 3 s) = Raise (ValueError "204 is not in list")
  /\ (forall name, In name (keys status_val) ->
      fst (read_memory_block 0x10000000 3 s)
      <> Raise (ValueError ("ERROR! status:" ++ name)%string)).
Proof.
  split; [reflexivity|]. split; [discriminate|]. split; [reflexivity|].
  split; [reflexivity|].
  intros name Hin. cbn in Hin.
  destruct Hin as [<-|[<-|[<-|[<-|[<-|[]]]]]]; discriminate.
Qed.

(** C4 (as amended): once the frame is built, [read_memory_block] calls
    [get_status] after the data exchange, and whenever that call returns one
    of the four non-SUCCESS codes of the status table the block read raises
    the [ValueError] whose message is [ERROR! status:] followed by the name
    of that code, whatever the data response held.  The naming holds for
    table entries only: any status other than 0x40 makes the block read
    raise a [ValueError], and for a byte outside the table it is the one of
    the failed table lookup, which quotes the byte in decimal and names no
    status. *)
Theorem C4_non_success_status_raises
    (addr n : Z) (s : Serial) (packet : bytes) (status : Z) :
  build_packet addr n = Return packet ->
  get_status (before_status packet s) = (Return status, after_block packet s) ->
  status <> 0x40 ->
  exists msg,
    read_memory_block addr n s = (Raise (ValueError msg), after_block packet s)
    /\ snd (read_memory_block addr n s) = snd (get_status (before_status packet s))
    /\ (forall name, In (name, status) status_val ->
        msg = ("ERROR! status:" ++ name)%string)
    /\ (status = 0x41 -> msg = "ERROR! status:COMMAND_RET_UNKNOWN_CMD"%string)
    /\ (status = 0x42 -> msg = "ERROR! status:COMMAND_RET_INVALID_CMD"%string)
    /\ (status = 0x43 -> msg = "ERROR! status:COMMAND_RET_INVALID_ADR"%string)
    /\ (status = 0x44 -> msg = "ERROR! status:COMMAND_RET_FLASH_FAIL"%string)
    /\ (~ In status (values status_val) ->
        msg = (str_int status ++ " is not in list")%string).
Proof.
  intros Hp Hst Hne.
  rewrite get_status_before_status in Hst.
  assert (Hlast : last_item (second_reply s) = Return status) by congruence.
  rewrite (read_memory_block_eq _ _ _ _ Hp).
  unfold block_outcome. rewrite Hlast.
  destruct (Z.eqb_spec status 0x40) as [E|_]; [contradiction|].
  rewrite get_status_before_status. cbn [snd].
  destruct (status_name_cases status) as [(name & Hin & Hn)|(Hnot & Hn)]; rewrite Hn.
  - exists ("ERROR! status:" ++ name)%string.
    assert (Hall : forall name', In (name', status) status_val ->
                     ("ERROR! status:" ++ name)%string = ("ERROR! status:" ++ name')%string).
    { intros name' Hin'. rewrite (status_val_name_unique _ _ _ Hin Hin'). reflexivity. }
    split; [reflexivity|]. split; [reflexivity|]. split; [exact Hall|].
    split; [|split; [|split; [|split]]].
    + intros ->. apply Hall. cbn; tauto.
    + intros ->. apply Hall. cbn; tauto.
    + intros ->. apply Hall. cbn; tauto.
    + intros ->. apply Hall. cbn; tauto.
    + intros Hnot. exfalso. apply Hnot.
      apply (in_map snd) in Hin. exact Hin.
  - exists (str_int status ++ " is not in list")%string.
    assert (Hnone : forall name, ~ In (name, status) status_val).
    { intros name Hin. apply Hnot. apply (in_map snd) in Hin. exact Hin. }
    split; [reflexivity|]. split; [reflexivity|].
    split; [intros name Hin; destruct (Hnone name Hin)|].
    split; [|split; [|split; [|split]]].
    + intros ->. exfalso; apply Hnot; cbn; tauto.
    + intros ->. exfalso; apply Hnot; cbn; tauto.
    + intros ->. exfalso; apply Hnot; cbn; tauto.
    + intros ->. exfalso; apply Hnot; cbn; tauto.
    + intros _. reflexivity.
Qed.

Lemma C4_non_success_status_raises_witness :
  exists msg,
    read_memory_block 0x10000000 3
      (port [[0x00; 0xcc; 0x05; 0x06; 1; 2; 3]; [0x00; 0xcc; 0x03; 0x43; 0x43]])
    = (Raise (ValueError msg),
       after_block [9; 0x3d; 0x2A; 0x10; 0; 0; 0; 0; 3]
         (port [[0x00; 0xcc; 0x05; 0x06; 1; 2; 3]; [0x00; 0xcc; 0x03; 0x43; 0x43]]))
    /\ msg = "ERROR! status:COMMAND_RET_INVALID_ADR"%string.
Proof.
  destruct (C4_non_success_status_raises 0x10000000 3
              (port [[0x00; 0xcc; 0x05; 0x06; 1; 2; 3]; [0x00; 0xcc; 0x03; 0x43; 0x43]])
              [9; 0x3d; 0x2A; 0x10; 0; 0; 0; 0; 3] 0x43
              eq_refl eq_refl ltac:(discriminate))
    as (msg & Hrun & _ & _ & _ & _ & Hadr & _).
  exists msg. split; [exact Hrun | exact (Hadr eq_refl)].
Defined.

(** ** Payload extraction *)

Lemma block_outcome_raise (r2 payload : bytes) (n : Z) (e : exn) :
  block_outcome r2 payload n = Raise e ->
  (e = IndexError "list index out of range" /\ r2 = [])
  \/ (exists status msg,
        last_item r2 = Return status /\ status <> 0x40 /\ e = ValueError msg)
  \/ (e = AssertionError "Did not receive all bytes..."
      /\ last_item r2 = Return 0x40 /\ Z.of_nat (List.length payload) <> n).
Proof.
  unfold block_outcome. destruct r2 as [|x xs].
  - cbn [last_item]. intros H; injection H as <-. left; split; reflexivity.
  - cbn [last_item]. set (status := last xs x).
    destruct (Z.eqb_spec status 0x40) as [E|N].
    + destruct (Z.eqb_spec (Z.of_nat (List.length payload)) n) as [_|Hl]; [discriminate|].
      intros H; injection H as <-. right; right. rewrite E. repeat split. exact Hl.
    + intros H. right; left.
      destruct (status_name_cases status) as [(name & _ & Hn)|(_ & Hn)];
        rewrite Hn in H; injection H as <-; eexists; eexists;
        (split; [reflexivity | split; [exact N | reflexivity]]).
Qed.

Lemma block_outcome_return (r2 payload data : bytes) (n : Z) :
  block_outcome r2 payload n = Return data ->
  data = payload /\ Z.of_nat (List.length payload) = n /\ last_item r2 = Return 0x40.
Proof.
  unfold block_outcome. destruct (last_item r2) as [status|e]; [|discriminate].
  destruct (Z.eqb_spec status 0x40) as [->|_].
  - destruct (Z.eqb_spec (Z.of_nat (List.length payload)) n) as [E|_]; [|discriminate].
    intros H; injection H as <-. repeat split. exact E.
  - destruct (status_name status); discriminate.
Qed.

(** *** C6 *)

(** A response one byte short together with status INVALID_ADR: the status
    error is raised, not the incomplete-transfer error. *)
Lemma C6_status_error_first_counterexample :
  let s := port [[0x00; 0xcc; 0x04; 0x03; 1; 2]; [0x00; 0xcc; 0x03; 0x43; 0x43]] in
  extract_payload (next_reply s) 3 = [1; 2]
  /\ Z.of_nat (List.length (extract_payload (next_reply s) 3)) <> 3
  /\ fst (read_memory_block 0x10000000 3 s) =
     Raise (ValueError "ERROR! status:COMMAND_RET_INVALID_ADR")
  /\ fst (read_memory_block 0x10000000 3 s) <>
     Raise (AssertionError "Did not receive all bytes...").
Proof.
  split; [reflexivity | split; [discriminate | split; [reflexivity | discriminate]]].
Qed.

(** C6 (as amended): for every raw response buffer, [read_memory_block]
    takes as payload the slice of [count] bytes that starts three positions
    after the first 0xCC byte of the buffer, and a value it returns is that
    slice.  When the slice does not have [count] bytes the operation fails;
    it fails with the [AssertionError] "Did not receive all bytes..." when
    the status query that precedes the length check returned SUCCESS. *)
Theorem C6_payload_extraction (addr n : Z) (s : Serial) (packet : bytes) :
  build_packet addr n = Return packet ->
  let resp := next_reply s in
  let payload := slice resp (find 0xcc resp + 3) (find 0xcc resp + 3 + n) in
  (forall pre rest, resp = pre ++ 0xcc :: rest -> ~ In 0xcc pre ->
     find 0xcc resp = Z.of_nat (List.length pre)
     /\ payload = firstn (Z.to_nat n) (skipn (List.length pre + 3) resp))
  /\ (forall data, fst (read_memory_block addr n s) = Return data ->
        data = payload /\ Z.of_nat (List.length data) = n)
  /\ (Z.of_nat (List.length payload) <> n ->
        (exists e, fst (read_memory_block addr n s) = Raise e)
        /\ (get_status (before_status packet s) = (Return 0x40, after_block packet s) ->
            read_memory_block addr n s =
            (Raise (AssertionError "Did not receive all bytes..."), after_block packet s))).
Proof.
  intros Hp resp payload.
  destruct (build_packet_inv _ _ _ Hp) as [_ Hn].
  rewrite (read_memory_block_eq _ _ _ _ Hp). cbn [fst].
  change (extract_payload (next_reply s) n) with payload.
  split; [|split].
  - intros pre rest E Hpre. unfold payload. rewrite E. unfold find.
    rewrite (find_from_first _ _ _ _ Hpre). split; [lia|].
    rewrite slice_nonneg by lia. f_equal. f_equal. lia.
  - intros data H. apply block_outcome_return in H.
    destruct H as (-> & Hl & _). split; [reflexivity | exact Hl].
  - intros Hl. split.
    + destruct (block_outcome (second_reply s) payload n) as [data|e] eqn:E.
      * apply block_outcome_return in E. destruct E as (_ & E & _). contradiction.
      * exists e; reflexivity.
    + rewrite get_status_before_status. intros Hst.
      assert (Hlast : last_item (second_reply s) = Return 0x40) by congruence.
      unfold block_outcome. rewrite Hlast. cbn [Z.eqb Pos.eqb].
      destruct (Z.eqb_spec (Z.of_nat (List.length payload)) n); [contradiction|].
      reflexivity.
Qed.

Lemma C6_payload_extraction_witness :
  read_memory_block 0x10000000 3
    (port [[0x00; 0xcc; 0x04; 0x03; 1; 2]; [0x00; 0xcc; 0x03; 0x40; 0x40]])
  = (Raise (AssertionError "Did not receive all bytes..."),
     after_block [9; 0x3d; 0x2A; 0x10; 0; 0; 0; 0; 3]
       (port [[0x00; 0xcc; 0x04; 0x03; 1; 2]; [0x00; 0xcc; 0x03; 0x40; 0x40]])).
Proof.
  apply (C6_payload_extraction 0x10000000 3
           (port [[0x00; 0xcc; 0x04; 0x03; 1; 2]; [0x00; 0xcc; 0x03; 0x40; 0x40]])
           [9; 0x3d; 0x2A; 0x10; 0; 0; 0; 0; 3] eq_refl).
  - discriminate.
  - reflexivity.
Defined.

(** *** C9 *)

(** C9: when the response holds no 0xCC byte the marker search yields -1,
    the payload is the slice of [count] bytes at offset 2 of the raw buffer,
    and no error is raised for the missing marker: an exception of
    [read_memory_block] is then the [IndexError] of an empty status reply,
    the [ValueError] of a non-SUCCESS status, or the [AssertionError] of the
    length check; with a SUCCESS status and enough bytes the call returns
    the bytes at offset 2. *)
Theorem C9_missing_marker_is_silent (addr n : Z) (s : Serial) (packet : bytes) :
  build_packet addr n = Return packet ->
  ~ In 0xcc (next_reply s) ->
  let resp := next_reply s in
  let payload := firstn (Z.to_nat n) (skipn 2 resp) in
  find 0xcc resp = -1
  /\ slice resp (find 0xcc resp + 3) (find 0xcc resp + 3 + n) = payload
  /\ snd (read_memory_block addr n s) = after_block packet s
  /\ (forall e, fst (read_memory_block addr n s) = Raise e ->
        (e = IndexError "list index out of range" /\ second_reply s = [])
        \/ (exists status msg,
              last_item (second_reply s) = Return status /\ status <> 0x40
              /\ e = ValueError msg)
        \/ (e = AssertionError "Did not receive all bytes..."
            /\ last_item (second_reply s) = Return 0x40
            /\ Z.of_nat (List.length payload) <> n))
  /\ (last_item (second_reply s) = Return 0x40 ->
      Z.of_nat (List.length payload) = n ->
      fst (read_memory_block addr n s) = Return payload).
Proof.
  intros Hp Hno resp payload.
  destruct (build_packet_inv _ _ _ Hp) as [_ Hn].
  assert (Hpay : extract_payload resp n = payload)
    by (apply extract_payload_no_marker; [exact Hno | lia]).
  rewrite (read_memory_block_eq _ _ _ _ Hp). fold resp. rewrite Hpay. cbn [fst snd].
  split; [apply find_from_absent; exact Hno|].
  split; [exact Hpay|]. split; [reflexivity|]. split.
  - intros e. apply block_outcome_raise.
  - intros Hst Hl. unfold block_outcome. rewrite Hst. cbn [Z.eqb Pos.eqb].
    rewrite (proj2 (Z.eqb_eq _ _) Hl). reflexivity.
Qed.

Lemma C9_missing_marker_is_silent_witness :
  find 0xcc [0x00; 0x33; 7; 8; 9] = -1
  /\ fst (read_memory_block 0x10000000 3
            (port [[0x00; 0x33; 7; 8; 9]; [0x00; 0xcc; 0x03; 0x40; 0x40]]))
     = Return [7; 8; 9].
Proof.
  pose proof (C9_missing_marker_is_silent 0x10000000 3
                (port [[0x00; 0x33; 7; 8; 9]; [0x00; 0xcc; 0x03; 0x40; 0x40]])
                [9; 0x3d; 0x2A; 0x10; 0; 0; 0; 0; 3] eq_refl) as H.
  assert (Hno : ~ In 0xcc [0x00; 0x33; 7; 8; 9])
    by (cbn [In]; intros [E|[E|[E|[E|[E|[]]]]]]; discriminate E).
  destruct (H Hno) as (Hfind & _ & _ & _ & Hok).
  split; [exact Hfind | exact (Hok eq_refl eq_refl)].
Defined.

(** ** The checksum *)

Lemma sum_bytes_app (l1 l2 : bytes) :
  sum_bytes (l1 ++ l2) = sum_bytes l1 + sum_bytes l2.
Proof.
  unfold sum_bytes.
  induction l1 as [|x l1 IH]; cbn [app fold_right]; [reflexivity|].
  rewrite IH. lia.
Qed.

Lemma is_byte_range (b : Z) : is_byte b = true <-> 0 <= b < 256.
Proof. unfold is_byte. rewrite andb_true_iff, Z.leb_le, Z.ltb_lt. tauto. Qed.

Lemma checksum_single_byte_change (pre post : bytes) (b b' : Z) :
  is_byte b = true -> is_byte b' = true -> b <> b' ->
  checksum (pre ++ b :: post) <> checksum (pre ++ b' :: post).
Proof.
  intros Hb Hb' Hne. apply is_byte_range in Hb. apply is_byte_range in Hb'.
  rewrite !checksum_mod, !sum_bytes_app.
  cbn [sum_bytes fold_right]. fold (sum_bytes post).
  set (x := sum_bytes pre + (b + sum_bytes post)).
  set (y := sum_bytes pre + (b' + sum_bytes post)).
  intros E.
  pose proof (Z.div_mod x 256 ltac:(lia)) as Hx.
  pose proof (Z.div_mod y 256 ltac:(lia)) as Hy.
  rewrite E in Hx.
  assert (Hd : b - b' = 256 * (x / 256 - y / 256)) by (unfold x, y in *; lia).
  lia.
Qed.

Lemma frame_body_bytes (addr n : Z) :
  0 <= n <= 255 -> Forall (fun b => is_byte b = true) (frame_body addr n).
Proof.
  intros Hn. unfold frame_body, big_endian_4. cbn [app].
  repeat constructor; apply is_byte_range; try lia;
    apply Z.mod_pos_bound; lia.
Qed.

(** *** C7 *)

(** C7: the checksum byte of the frame that [read_memory_block] transmits
    is a function of the frame body alone: it does not depend on the state
    of the port, equal bodies give equal checksums, and two bodies that
    differ in exactly one byte give different checksums. *)
Theorem C7_checksum_pure
    (addr n addr' n' : Z) (s s' : Serial) (packet packet' : bytes) :
  build_packet addr n = Return packet ->
  build_packet addr' n' = Return packet' ->
  let body := frame_body addr n in
  let body' := frame_body addr' n' in
  packet = 9 :: checksum body :: body
  /\ packet' = 9 :: checksum body' :: body'
  /\ trace (snd (read_memory_block addr n s)) =
     trace s ++ block_events packet (next_reply s) (second_reply s)
  /\ trace (snd (read_memory_block addr' n' s')) =
     trace s' ++ block_events packet' (next_reply s') (second_reply s')
  /\ (body = body' -> nth 1 packet 0 = nth 1 packet' 0)
  /\ (forall pre post b b',
        body = pre ++ b :: post -> body' = pre ++ b' :: post -> b <> b' ->
        nth 1 packet 0 <> nth 1 packet' 0).
Proof.
  intros Hp Hp' body body'.
  destruct (build_packet_inv _ _ _ Hp) as [Ha Hn].
  destruct (build_packet_inv _ _ _ Hp') as [Ha' Hn'].
  assert (E : packet = 9 :: checksum body :: body)
    by (rewrite (build_packet_ok _ _ Ha Hn) in Hp; injection Hp as <-; reflexivity).
  assert (E' : packet' = 9 :: checksum body' :: body')
    by (rewrite (build_packet_ok _ _ Ha' Hn') in Hp'; injection Hp' as <-; reflexivity).
  split; [exact E|]. split; [exact E'|].
  split; [apply read_memory_block_trace; exact Hp|].
  split; [apply read_memory_block_trace; exact Hp'|].
  rewrite E, E'. cbn [nth]. split.
  - intros ->. reflexivity.
  - intros pre post b b' Hb Hb' Hne. rewrite Hb, Hb'.
    pose proof (frame_body_bytes addr n Hn) as F. fold body in F. rewrite Hb in F.
    pose proof (frame_body_bytes addr' n' Hn') as F'. fold body' in F'. rewrite Hb' in F'.
    rewrite Forall_forall in F, F'.
    apply checksum_single_byte_change; [apply F | apply F' | exact Hne];
      apply in_or_app; right; left; reflexivity.
Qed.

Lemma C7_checksum_pure_witness :
  nth 1 [9; 0x37; 0x2A; 0x10; 0x00; 0x00; 0x00; 0x00; 0xFD] 0
  <> nth 1 [9; 0x36; 0x2A; 0x10; 0x00; 0x00; 0x00; 0x00; 0xFC] 0.
Proof.
  destruct (C7_checksum_pure 0x10000000 253 0x10000000 252 (port []) (port [])
              [9; 0x37; 0x2A; 0x10; 0x00; 0x00; 0x00; 0x00; 0xFD]
              [9; 0x36; 0x2A; 0x10; 0x00; 0x00; 0x00; 0x00; 0xFC]
              eq_refl eq_refl) as (_ & _ & _ & _ & _ & H).
  apply (H [0x2A; 0x10; 0x00; 0x00; 0x00; 0x00] [] 253 252).
  - reflexivity.
  - reflexivity.
  - discriminate.
Defined.

(** ** The chunked region read *)

Lemma full_blocks_S (start : Z) (n : nat) :
  full_blocks start (S n) = (start, 253) :: full_blocks (start + 253) n.
Proof.
  unfold full_blocks. cbn [seq map]. f_equal.
  - f_equal. lia.
  - rewrite <- seq_shift, map_map. apply map_ext. intros i. f_equal. lia.
Qed.

Lemma read_blocks_app (p1 p2 : list (Z * Z)) (s : Serial) :
  read_blocks (p1 ++ p2) s =
  match read_blocks p1 s with
  | (Return b1, s1) =>
      match read_blocks p2 s1 with
      | (Return b2, s2) => (Return (b1 ++ b2), s2)
      | (Raise e, s2) => (Raise e, s2)
      end
  | (Raise e, s1) => (Raise e, s1)
  end.
Proof.
  revert s; induction p1 as [|p p1 IH]; intros s; cbn [app read_blocks].
  - unfold ret. destruct (read_blocks p2 s) as [[b2|e] s2]; reflexivity.
  - unfold bind, ret.
    destruct (read_memory_block (fst p) (snd p) s) as [[b|e] s1]; [|reflexivity].
    rewrite IH.
    destruct (read_blocks p1 s1) as [[b1|e] s2]; [|reflexivity].
    destruct (read_blocks p2 s2) as [[b2|e] s3]; reflexivity.
Qed.

Lemma read_full_blocks_plan (n : nat) (addr : Z) (data : bytes) (s : Serial) :
  read_full_blocks n addr data s =
  match read_blocks (full_blocks addr n) s with
  | (Return bs, s') => (Return (addr + 253 * Z.of_nat n, data ++ List.concat bs), s')
  | (Raise e, s') => (Raise e, s')
  end.
Proof.
  revert addr data s; induction n as [|n IH]; intros addr data s.
  - cbn. unfold ret. rewrite app_nil_r. do 2 f_equal. f_equal. lia.
  - rewrite full_blocks_S. cbn [read_full_blocks read_blocks fst snd].
    unfold bind, ret.
    destruct (read_memory_block addr 253 s) as [[b|e] s1]; [|reflexivity].
    rewrite IH.
    destruct (read_blocks (full_blocks (addr + 253) n) s1) as [[bs|e] s2];
      [|reflexivity].
    cbn [List.concat]. rewrite app_assoc. do 2 f_equal. f_equal. lia.
Qed.

Lemma read_memory_region_plan (start stop : Z) (s : Serial) :
  start <= stop ->
  read_memory_region start stop s =
  (bs <- read_blocks (block_plan start stop) ;; ret (List.concat bs)) s.
Proof.
  intros Hle.
  assert (Hb : 0 <= (stop - start) / 253) by (apply Z.div_pos; lia).
  pose proof (Z.div_mod (stop - start) 253 ltac:(lia)) as Hdm.
  unfold read_memory_region, block_plan.
  unfold bind, ret. rewrite read_full_blocks_plan, read_blocks_app.
  rewrite Z2Nat.id by exact Hb.
  destruct (read_blocks (full_blocks start _) s) as [[bs|e] s1]; [|reflexivity].
  cbn [fst snd read_blocks]. unfold bind, ret.
  replace (stop - (start + 253 * ((stop - start) / 253)))
    with ((stop - start) mod 253) by lia.
  destruct (read_memory_block _ _ s1) as [[b|e] s2]; [|reflexivity].
  rewrite concat_app. cbn [List.concat]. rewrite app_nil_r. reflexivity.
Qed.

Lemma read_memory_block_return (addr n : Z) (s s' : Serial) (data : bytes) :
  read_memory_block addr n s = (Return data, s') ->
  0 <= addr < 2 ^ 32 /\ 0 <= n <= 255
  /\ data = extract_payload (next_reply s) n
  /\ Z.of_nat (List.length data) = n
  /\ s' = after_block (block_frame addr n) s.
Proof.
  intros H. destruct (build_packet addr n) as [packet|e] eqn:Hp.
  - destruct (build_packet_inv _ _ _ Hp) as [Ha Hn].
    rewrite (build_packet_ok _ _ Ha Hn) in Hp. injection Hp as <-.
    rewrite (read_memory_block_eq addr n s _ (build_packet_ok _ _ Ha Hn)) in H.
    injection H as Ho Hs.
    apply block_outcome_return in Ho. destruct Ho as (-> & Hl & _).
    repeat split; try lia; try assumption. symmetry; exact Hs.
  - rewrite (read_memory_block_raise _ _ _ _ Hp) in H. discriminate.
Qed.

Lemma read_blocks_return (plan : list (Z * Z)) (s s' : Serial) (bs : list bytes) :
  read_blocks plan s = (Return bs, s') ->
  Z.of_nat (List.length (List.concat bs)) = sum_counts plan
  /\ List.length bs = List.length plan
  /\ written (trace s') = written (trace s) ++ flat_map block_writes plan.
Proof.
  revert s bs; induction plan as [|p plan IH]; intros s bs; cbn [read_blocks].
  - unfold ret. intros H; injection H as <- <-.
    rewrite app_nil_r. repeat split.
  - unfold bind, ret.
    destruct (read_memory_block (fst p) (snd p) s) as [[b|e] s1] eqn:Hb; [|discriminate].
    destruct (read_blocks plan s1) as [[bs1|e] s2] eqn:Hr; [|discriminate].
    intros H; injection H as <- <-.
    destruct (IH _ _ Hr) as (Hlen & Hn & Hw).
    destruct (read_memory_block_return _ _ _ _ _ Hb) as (_ & _ & _ & Hl & ->).
    split; [|split].
    + cbn [List.concat]. rewrite length_app, Nat2Z.inj_add, Hlen, Hl.
      unfold sum_counts. cbn [map sum_bytes fold_right]. reflexivity.
    + cbn [List.length]. rewrite Hn. reflexivity.
    + rewrite Hw. unfold after_block. cbn [trace]. rewrite written_app.
      cbn [flat_map]. rewrite <- app_assoc. reflexivity.
Qed.

Lemma sum_counts_app (p1 p2 : list (Z * Z)) :
  sum_counts (p1 ++ p2) = sum_counts p1 + sum_counts p2.
Proof. unfold sum_counts. rewrite map_app. apply sum_bytes_app. Qed.

Lemma sum_counts_full_blocks (start : Z) (n : nat) :
  sum_counts (full_blocks start n) = 253 * Z.of_nat n.
Proof.
  revert start; induction n as [|n IH]; intros start; [reflexivity|].
  rewrite full_blocks_S. unfold sum_counts in *. cbn [map snd sum_bytes fold_right].
  fold (sum_bytes (map snd (full_blocks (start + 253) n))). rewrite IH. lia.
Qed.

Lemma sum_counts_block_plan (start stop : Z) :
  start <= stop -> sum_counts (block_plan start stop) = stop - start.
Proof.
  intros Hle. unfold block_plan.
  assert (Hb : 0 <= (stop - start) / 253) by (apply Z.div_pos; lia).
  rewrite sum_counts_app, sum_counts_full_blocks, Z2Nat.id by exact Hb.
  unfold sum_counts. cbn [map snd sum_bytes fold_right].
  pose proof (Z.div_mod (stop - start) 253 ltac:(lia)). lia.
Qed.

Lemma length_block_plan (start stop : Z) :
  start <= stop ->
  Z.of_nat (List.length (block_plan start stop)) = (stop - start) / 253 + 1.
Proof.
  intros Hle. unfold block_plan, full_blocks.
  assert (Hb : 0 <= (stop - start) / 253) by (apply Z.div_pos; lia).
  rewrite length_app, length_map, length_seq. cbn [List.length]. lia.
Qed.

(** *** The device that answers in full *)

Section HealthyDevice.

Variable mem : Z -> Z.

Lemma length_mem_bytes (addr count : Z) :
  List.length (mem_bytes mem addr count) = Z.to_nat count.
Proof. unfold mem_bytes. rewrite length_map, length_seq. reflexivity. Qed.

Lemma extract_payload_data_reply (addr count : Z) :
  0 <= count ->
  extract_payload (data_reply mem addr count) count = mem_bytes mem addr count.
Proof.
  intros Hc. unfold extract_payload, data_reply.
  change (find 0xcc ([0x00; 0xcc; count + 2; checksum (mem_bytes mem addr count)]
                      ++ mem_bytes mem addr count)) with 1.
  rewrite slice_nonneg by lia.
  change (Z.to_nat (1 + 3)) with 4%nat. cbn [app skipn].
  apply firstn_all2. rewrite length_mem_bytes. lia.
Qed.

Lemma map_seq_from (A : Type) (f : nat -> A) (n m : nat) :
  map f (seq n m) = map (fun i => f (n + i)%nat) (seq 0 m).
Proof.
  revert n; induction m as [|m IH]; intros n; cbn [seq map]; [reflexivity|].
  f_equal; [f_equal; lia|].
  rewrite (IH (S n)), <- (seq_shift m 0), map_map.
  apply map_ext. intros i. f_equal. lia.
Qed.

Lemma mem_bytes_app (addr c1 c2 : Z) :
  0 <= c1 -> 0 <= c2 ->
  mem_bytes mem addr (c1 + c2) = mem_bytes mem addr c1 ++ mem_bytes mem (addr + c1) c2.
Proof.
  intros H1 H2. unfold mem_bytes.
  rewrite Z2Nat.inj_add, seq_app, map_app by lia. f_equal.
  rewrite map_seq_from. apply map_ext. intros i. f_equal. lia.
Qed.

Lemma concat_mem_full_blocks (start : Z) (n : nat) :
  List.concat (map (fun p => mem_bytes mem (fst p) (snd p)) (full_blocks start n))
  = mem_bytes mem start (253 * Z.of_nat n).
Proof.
  revert start; induction n as [|n IH]; intros start; [reflexivity|].
  rewrite full_blocks_S. cbn [map List.concat fst snd]. rewrite IH.
  replace (253 * Z.of_nat (S n)) with (253 + 253 * Z.of_nat n) by lia.
  rewrite mem_bytes_app by lia. reflexivity.
Qed.

Lemma concat_mem_block_plan (start stop : Z) :
  start <= stop ->
  List.concat (map (fun p => mem_bytes mem (fst p) (snd p)) (block_plan start stop))
  = mem_bytes mem start (stop - start).
Proof.
  intros Hle. unfold block_plan.
  assert (Hb : 0 <= (stop - start) / 253) by (apply Z.div_pos; lia).
  pose proof (Z.div_mod (stop - start) 253 ltac:(lia)) as Hdm.
  pose proof (Z.mod_pos_bound (stop - start) 253 ltac:(lia)) as Hm.
  rewrite map_app, concat_app, concat_mem_full_blocks, Z2Nat.id by exact Hb.
  cbn [map List.concat fst snd]. rewrite app_nil_r.
  rewrite <- mem_bytes_app by lia. f_equal. lia.
Qed.

Lemma read_memory_block_healthy (addr n : Z)
    (more : list bytes) (t : list event) :
  0 <= addr < 2 ^ 32 -> 0 <= n <= 255 ->
  read_memory_block addr n
    (mkSerial (data_reply mem addr n :: status_reply_success :: more) t)
  = (Return (mem_bytes mem addr n),
     mkSerial more
       (t ++ block_events (block_frame addr n) (data_reply mem addr n)
               status_reply_success)).
Proof.
  intros Ha Hn.
  rewrite (read_memory_block_eq _ _ _ _ (build_packet_ok _ _ Ha Hn)).
  unfold next_reply, second_reply, after_block. cbn [pending trace hd tl].
  rewrite extract_payload_data_reply by lia.
  unfold block_outcome. change (last_item status_reply_success) with (Return 0x40).
  cbn [Z.eqb Pos.eqb]. rewrite length_mem_bytes, Z2Nat.id, Z.eqb_refl by lia.
  reflexivity.
Qed.

Lemma read_blocks_healthy (plan : list (Z * Z))
    (more : list bytes) (t : list event) :
  Forall valid_block plan ->
  fst (read_blocks plan (mkSerial (healthy_replies mem plan ++ more) t))
  = Return (map (fun p => mem_bytes mem (fst p) (snd p)) plan)
  /\ pending (snd (read_blocks plan (mkSerial (healthy_replies mem plan ++ more) t)))
     = more.
Proof.
  intros Hv. revert t; induction Hv as [|p plan [Ha Hn] _ IH]; intros t.
  - split; reflexivity.
  - cbn [healthy_replies flat_map app read_blocks]. unfold bind, ret.
    fold (healthy_replies mem plan).
    rewrite (read_memory_block_healthy _ _ _ t Ha Hn).
    specialize (IH (t ++ block_events (block_frame (fst p) (snd p))
                          (data_reply mem (fst p) (snd p)) status_reply_success)).
    destruct (read_blocks plan _) as [[bs|e] s2]; cbn [fst snd] in *.
    + destruct IH as [IH1 IH2]. injection IH1 as ->. split; [reflexivity | exact IH2].
    + destruct IH as [IH1 _]. discriminate.
Qed.

End HealthyDevice.

Lemma valid_full_blocks (start : Z) (n : nat) :
  0 <= start -> start + 253 * Z.of_nat n < 2 ^ 32 ->
  Forall valid_block (full_blocks start n).
Proof.
  intros H0 H1. unfold full_blocks. apply Forall_forall. intros p Hin.
  apply in_map_iff in Hin. destruct Hin as (i & <- & Hi).
  apply in_seq in Hi. unfold valid_block. cbn [fst snd]. lia.
Qed.

Lemma valid_block_plan (start stop : Z) :
  0 <= start -> start < stop -> stop < 2 ^ 32 ->
  Forall valid_block (block_plan start stop).
Proof.
  intros H0 Hlt H1. unfold block_plan.
  assert (Hb : 0 <= (stop - start) / 253) by (apply Z.div_pos; lia).
  pose proof (Z.div_mod (stop - start) 253 ltac:(lia)) as Hdm.
  pose proof (Z.mod_pos_bound (stop - start) 253 ltac:(lia)) as Hm.
  apply Forall_app. split.
  - apply valid_full_blocks; [lia|]. rewrite Z2Nat.id by exact Hb. lia.
  - constructor; [|constructor]. unfold valid_block. cbn [fst snd]. lia.
Qed.

(** *** C1 *)

(** C1: for every 32-bit range with [start < stop], [read_memory_region]
    is the sequence of block reads of [block_plan start stop], issued in
    ascending address order, with their results concatenated:
    [(stop - start) div 253] reads of 253 bytes at consecutive addresses,
    then one read of the remainder.  Whenever it returns, the result has
    exactly [stop - start] bytes and the frames written are those of the
    plan, in order; on a device that answers every block in full it does
    return, with the content of the range.  For the ROM range
    0x10000000..0x1001cc00 that is 465 full blocks, a final block of 115
    bytes, and 117760 bytes in all. *)
Theorem C1_read_memory_region (start stop : Z) (s : Serial) :
  0 <= start -> start < stop -> stop < 2 ^ 32 ->
  let blocks := (stop - start) / 253 in
  let plan := block_plan start stop in
  plan = map (fun i => (start + 253 * Z.of_nat i, 253)) (seq 0 (Z.to_nat blocks))
         ++ [(start + 253 * blocks, stop - start - 253 * blocks)]
  /\ Z.of_nat (List.length plan) = blocks + 1
  /\ read_memory_region start stop s =
     (bs <- read_blocks plan ;; ret (List.concat bs)) s
  /\ (forall data s',
        read_memory_region start stop s = (Return data, s') ->
        Z.of_nat (List.length data) = stop - start
        /\ (exists bs, read_blocks plan s = (Return bs, s')
                       /\ data = List.concat bs
                       /\ List.length bs = List.length plan)
        /\ written (trace s') = written (trace s) ++ flat_map block_writes plan)
  /\ (forall mem more,
        pending s = healthy_replies mem plan ++ more ->
        fst (read_memory_region start stop s)
        = Return (mem_bytes mem start (stop - start)))
  /\ (start = 0x10000000 -> stop = 0x1001cc00 ->
      blocks = 465 /\ stop - start - 253 * blocks = 115 /\ stop - start = 117760).
Proof.
  intros H0 Hlt H1 blocks plan.
  assert (Hle : start <= stop) by lia.
  pose proof (Z.div_mod (stop - start) 253 ltac:(lia)) as Hdm.
  fold blocks in Hdm.
  pose proof (read_memory_region_plan start stop s Hle) as Hplan. fold plan in Hplan.
  split; [|split; [|split; [|split; [|split]]]].
  - unfold plan, block_plan, full_blocks. fold blocks. do 3 f_equal. lia.
  - apply length_block_plan; exact Hle.
  - exact Hplan.
  - intros data s' Hrun. rewrite Hplan in Hrun. unfold bind, ret in Hrun.
    destruct (read_blocks plan s) as [[bs|e] s2] eqn:Hr; [|discriminate].
    injection Hrun as <- <-.
    destruct (read_blocks_return _ _ _ _ Hr) as (Hlen & Hn & Hw).
    split; [|split].
    + rewrite Hlen. apply sum_counts_block_plan; exact Hle.
    + exists bs. split; [reflexivity | split; [reflexivity | exact Hn]].
    + exact Hw.
  - intros mem more Hpend. rewrite Hplan. unfold bind, ret.
    destruct s as [p t]. cbn [pending] in Hpend. subst p.
    destruct (read_blocks_healthy mem plan more t
                (valid_block_plan start stop H0 Hlt H1)) as [Hfst _].
    destruct (read_blocks plan _) as [[bs|e] s2]; cbn [fst] in *; [|discriminate].
    injection Hfst as ->. f_equal.
    apply concat_mem_block_plan; exact Hle.
  - intros -> ->. unfold blocks. split; [reflexivity | split; reflexivity].
Qed.

Lemma C1_read_memory_region_witness :
  Z.of_nat (List.length (block_plan 0x10000000 0x1001cc00)) = 465 + 1
  /\ block_plan 0x10000000 0x1001cc00 =
     map (fun i => (0x10000000 + 253 * Z.of_nat i, 253)) (seq 0 465)
     ++ [(0x10000000 + 253 * 465, 115)]
  /\ (forall mem,
        fst (read_memory_region 0x10000000 0x1001cc00
               (port (healthy_replies mem (block_plan 0x10000000 0x1001cc00) ++ [])))
        = Return (mem_bytes mem 0x10000000 117760))
  /\ (forall s data s',
        read_memory_region 0x10000000 0x1001cc00 s = (Return data, s') ->
        Z.of_nat (List.length data) = 117760).
Proof.
  assert (Ha : 0 <= 0x10000000) by lia.
  assert (Hb : 0x10000000 < 0x1001cc00) by lia.
  assert (Hc : 0x1001cc00 < 2 ^ 32) by lia.
  split; [|split; [|split]].
  - exact (proj1 (proj2 (C1_read_memory_region _ _ (port []) Ha Hb Hc))).
  - exact (proj1 (C1_read_memory_region _ _ (port []) Ha Hb Hc)).
  - intros mem.
    destruct (C1_read_memory_region _ _
                (port (healthy_replies mem (block_plan 0x10000000 0x1001cc00) ++ []))
                Ha Hb Hc) as (_ & _ & _ & _ & Hh & _).
    exact (Hh mem [] eq_refl).
  - intros s data s' Hrun.
    destruct (C1_read_memory_region _ _ s Ha Hb Hc) as (_ & _ & _ & Hr & _).
    exact (proj1 (Hr data s' Hrun)).
Defined.

(** * Further properties of the bootloader client *)

(** ** ping and get_chip_id *)

Lemma ping_eq (s : Serial) :
  ping s =
  (if bytes_eqb (next_reply s) ACK then Return (next_reply s)
   else Raise (AssertionError "Ping command was not acknowledged by device"),
   mkSerial (tl (pending s))
            (trace s ++ [EvFlushInput; EvWrite [0x03; 0x20; 0x20]; EvSleep;
                         EvRead (next_reply s)])).
Proof.
  destruct s as [p t]. unfold ping, bind, ser_flushInput, ser_write, time_sleep,
    ser_read_in_waiting, ret, raise, log, next_reply.
  destruct p as [|r p]; cbn [pending trace hd tl];
    repeat rewrite <- app_assoc; cbn [app].
  - reflexivity.
  - destruct (bytes_eqb r ACK); reflexivity.
Qed.

Lemma get_chip_id_eq (s : Serial) :
  get_chip_id s =
  (Return (next_reply s),
   mkSerial (tl (pending s))
            (trace s ++ [EvFlushInput; EvWrite [0x03; 0x28; 0x28]; EvSleep;
                         EvRead (next_reply s); EvWrite [0xcc]])).
Proof.
  destruct s as [p t]. unfold get_chip_id, bind, ser_flushInput, ser_write,
    time_sleep, ser_read_in_waiting, ret, log, next_reply.
  destruct p as [|r p]; cbn [pending trace hd tl];
    repeat rewrite <- app_assoc; reflexivity.
Qed.

(** X1: [ping] returns the reply when the reply is exactly the ACK token
    and raises the [AssertionError] of its assertion for any other reply.
    Either way the port sees the ping frame and one read, and, unlike
    [get_chip_id] and [get_status], no ACK byte is written back. *)
Theorem X1_ping (s : Serial) :
  let r := next_reply s in
  let s' := mkSerial (tl (pending s))
              (trace s ++ [EvFlushInput; EvWrite [0x03; 0x20; 0x20]; EvSleep; EvRead r]) in
  (r = [0x00; 0xcc] -> ping s = (Return [0x00; 0xcc], s'))
  /\ (r <> [0x00; 0xcc] ->
      ping s = (Raise (AssertionError "Ping command was not acknowledged by device"), s'))
  /\ written (trace (snd (ping s))) = written (trace s) ++ [[0x03; 0x20; 0x20]].
Proof.
  intros r s'. rewrite ping_eq. fold r. fold s'. split; [|split].
  - intros E. rewrite (proj2 (bytes_eqb_eq r ACK) E), E. reflexivity.
  - intros N. destruct (bytes_eqb r ACK) eqn:E; [|reflexivity].
    exfalso; apply N; apply bytes_eqb_eq; exact E.
  - cbn [snd]. unfold s'. cbn [trace]. rewrite written_app. reflexivity.
Qed.

Lemma X1_ping_witness :
  ping (port [[0x00; 0xcc]]) =
    (Return [0x00; 0xcc],
     mkSerial [] [EvFlushInput; EvWrite [0x03; 0x20; 0x20]; EvSleep; EvRead [0x00; 0xcc]])
  /\ ping (port [[0x00; 0x33]]) =
    (Raise (AssertionError "Ping command was not acknowledged by device"),
     mkSerial [] [EvFlushInput; EvWrite [0x03; 0x20; 0x20]; EvSleep; EvRead [0x00; 0x33]]).
Proof.
  split.
  - apply (X1_ping (port [[0x00; 0xcc]])). reflexivity.
  - apply (X1_ping (port [[0x00; 0x33]])). discriminate.
Defined.

(** X3: construction does not inspect the answer to the chip-identifier
    query.  When the handshake reply is the ACK token, [__init__] succeeds
    whatever comes back next, an empty answer included, after writing the
    sync pattern, the chip-identifier frame and one ACK byte, in that order;
    there is no [flushInput] before the sync pattern. *)
Theorem X3_init_accepts_any_chip_id (s : Serial) :
  next_reply s = [0x00; 0xcc] ->
  init s =
  (Return tt,
   mkSerial (tl (tl (pending s)))
     (trace s ++ [EvWrite [0x55; 0x55]; EvSleep; EvRead [0x00; 0xcc];
                  EvFlushInput; EvWrite [0x03; 0x28; 0x28]; EvSleep;
                  EvRead (second_reply s); EvWrite [0xcc]]))
  /\ written (trace (snd (init s)))
     = written (trace s) ++ [[0x55; 0x55]; [0x03; 0x28; 0x28]; [0xcc]].
Proof.
  intros Hack.
  assert (E : init s =
    (Return tt,
     mkSerial (tl (tl (pending s)))
       (trace s ++ [EvWrite [0x55; 0x55]; EvSleep; EvRead [0x00; 0xcc];
                    EvFlushInput; EvWrite [0x03; 0x28; 0x28]; EvSleep;
                    EvRead (second_reply s); EvWrite [0xcc]]))).
  { destruct s as [p t]. unfold next_reply, second_reply in *. cbn [pending trace] in *.
    unfold init. unfold bind at 1, ser_write at 1. unfold bind at 1, time_sleep at 1.
    unfold bind at 1, ser_read_in_waiting at 1. unfold log. cbn [pending trace].
    destruct p as [|r p]; cbn [hd] in Hack; [discriminate|]. subst r.
    change (negb (bytes_eqb [0; 204] ACK)) with false. cbn iota.
    unfold bind, ret. rewrite get_chip_id_eq. unfold next_reply.
    cbn [pending trace hd tl]. repeat rewrite <- app_assoc. reflexivity. }
  split; [exact E|]. rewrite E. cbn [snd trace]. rewrite written_app. reflexivity.
Qed.

Lemma X3_init_accepts_any_chip_id_witness :
  init (port [[0x00; 0xcc]; []]) =
  (Return tt,
   mkSerial [] [EvWrite [0x55; 0x55]; EvSleep; EvRead [0x00; 0xcc];
                EvFlushInput; EvWrite [0x03; 0x28; 0x28]; EvSleep;
                EvRead []; EvWrite [0xcc]]).
Proof.
  apply (X3_init_accepts_any_chip_id (port [[0x00; 0xcc]; []])). reflexivity.
Defined.

(** ** Argument checks of read_memory_block *)

Lemma to_bytes_4_big_negative (addr : Z) :
  addr < 0 ->
  to_bytes_4_big addr = Raise (OverflowError "can't convert negative int to unsigned").
Proof.
  intros H. unfold to_bytes_4_big. destruct (Z.ltb_spec addr 0); [reflexivity | lia].
Qed.

Lemma to_bytes_4_big_too_big (addr : Z) :
  2 ^ 32 <= addr ->
  to_bytes_4_big addr = Raise (OverflowError "int too big to convert").
Proof.
  intros H. unfold to_bytes_4_big.
  destruct (Z.ltb_spec addr 0); [lia|].
  destruct (Z.leb_spec (2 ^ 32) addr); [reflexivity | lia].
Qed.

Lemma build_packet_bad_addr (addr n : Z) (e : exn) :
  to_bytes_4_big addr = Raise e -> build_packet addr n = Raise e.
Proof.
  intros H. unfold build_packet.
  change (bytearray [42]) with (Return (A:=bytes) [42]). rewrite H. reflexivity.
Qed.

Lemma read_memory_block_bad_count (addr n : Z) (s : Serial) :
  0 <= addr < 2 ^ 32 -> n < 0 \/ 255 < n ->
  read_memory_block addr n s =
  (Raise (ValueError "byte must be in range(0, 256)"), s).
Proof.
  intros Ha Hn. apply read_memory_block_raise.
  rewrite (build_packet_bad_count _ _ Hn), (to_bytes_4_big_ok _ Ha). reflexivity.
Qed.

Lemma read_memory_block_too_big (addr n : Z) (s : Serial) :
  2 ^ 32 <= addr ->
  read_memory_block addr n s = (Raise (OverflowError "int too big to convert"), s).
Proof.
  intros Ha. apply read_memory_block_raise, build_packet_bad_addr,
    to_bytes_4_big_too_big, Ha.
Qed.

(** X4: [read_memory_block] touches the port exactly when its arguments fit
    the frame: a 32-bit address and a count in 0..255.  Then it performs the
    ten port calls of a block transaction, whatever the device answers.
    Otherwise it raises before any port call and leaves the port as it was:
    [OverflowError] for a negative or too large address (checked first,
    whatever the count), [ValueError] for a count outside 0..255. *)
Theorem X4_block_io_iff_arguments_fit (addr n : Z) (s : Serial) :
  (0 <= addr < 2 ^ 32 -> 0 <= n <= 255 ->
   snd (read_memory_block addr n s) = after_block (block_frame addr n) s)
  /\ (addr < 0 ->
      read_memory_block addr n s =
      (Raise (OverflowError "can't convert negative int to unsigned"), s))
  /\ (2 ^ 32 <= addr ->
      read_memory_block addr n s = (Raise (OverflowError "int too big to convert"), s))
  /\ (0 <= addr < 2 ^ 32 -> n < 0 \/ 255 < n ->
      read_memory_block addr n s =
      (Raise (ValueError "byte must be in range(0, 256)"), s)).
Proof.
  split; [|split; [|split]].
  - intros Ha Hn.
    rewrite (read_memory_block_eq _ _ _ _ (build_packet_ok _ _ Ha Hn)). reflexivity.
  - intros Ha. apply read_memory_block_raise, build_packet_bad_addr,
      to_bytes_4_big_negative, Ha.
  - apply read_memory_block_too_big.
  - apply read_memory_block_bad_count.
Qed.

Lemma X4_block_io_iff_arguments_fit_witness :
  read_memory_block (-1) 300 (port []) =
    (Raise (OverflowError "can't convert negative int to unsigned"), port [])
  /\ read_memory_block (2 ^ 32) 1 (port []) =
    (Raise (OverflowError "int too big to convert"), port [])
  /\ read_memory_block 0x10000000 (-1) (port []) =
    (Raise (ValueError "byte must be in range(0, 256)"), port [])
  /\ snd (read_memory_block 0x10000000 0 (port [])) =
     after_block (block_frame 0x10000000 0) (port []).
Proof.
  split; [|split; [|split]].
  - apply (X4_block_io_iff_arguments_fit (-1) 300 (port [])). lia.
  - apply (X4_block_io_iff_arguments_fit (2 ^ 32) 1 (port [])). lia.
  - apply (X4_block_io_iff_arguments_fit 0x10000000 (-1) (port [])); lia.
  - apply (X4_block_io_iff_arguments_fit 0x10000000 0 (port [])); lia.
Defined.

(** X5: the response header is not verified.  For a response made of one
    byte other than 0xCC, the marker 0xCC, two more bytes and the data, with
    a SUCCESS status, [read_memory_block] returns the first [count] data
    bytes whatever the first byte, the size byte and the checksum byte are,
    whatever the data holds (0xCC bytes included) and whatever follows the
    first [count] data bytes. *)
Theorem X5_response_header_not_checked
    (addr n : Z) (s : Serial) (b0 size chk : Z) (data st : bytes) (rest : list bytes) :
  0 <= addr < 2 ^ 32 -> 0 <= n <= 255 ->
  pending s = (b0 :: 0xcc :: size :: chk :: data) :: st :: rest ->
  b0 <> 0xcc ->
  last_item st = Return 0x40 ->
  n <= Z.of_nat (List.length data) ->
  read_memory_block addr n s =
  (Return (firstn (Z.to_nat n) data), after_block (block_frame addr n) s).
Proof.
  intros Ha Hn Hp Hb0 Hst Hlen.
  rewrite (read_memory_block_eq _ _ _ _ (build_packet_ok _ _ Ha Hn)).
  unfold next_reply, second_reply. rewrite Hp. cbn [hd tl].
  assert (Hpay : extract_payload (b0 :: 0xcc :: size :: chk :: data) n
                 = firstn (Z.to_nat n) data).
  { change (b0 :: 0xcc :: size :: chk :: data)
      with ([b0] ++ 0xcc :: size :: chk :: data).
    rewrite extract_payload_marker; [reflexivity | | lia].
    cbn [In]. intros [E|[]]. apply Hb0. exact E. }
  rewrite Hpay. unfold block_outcome. rewrite Hst. cbn [Z.eqb Pos.eqb].
  rewrite length_firstn, Nat.min_l by lia.
  rewrite Z2Nat.id, Z.eqb_refl by lia. reflexivity.
Qed.

Lemma X5_response_header_not_checked_witness :
  read_memory_block 0x10000000 2
    (port [[0x33; 0xcc; 0xff; 0xff; 0xcc; 0xcc; 0x07]; [0x40]])
  = (Return [0xcc; 0xcc],
     after_block (block_frame 0x10000000 2)
       (port [[0x33; 0xcc; 0xff; 0xff; 0xcc; 0xcc; 0x07]; [0x40]])).
Proof.
  apply (X5_response_header_not_checked 0x10000000 2
           (port [[0x33; 0xcc; 0xff; 0xff; 0xcc; 0xcc; 0x07]; [0x40]])
           0x33 0xff 0xff [0xcc; 0xcc; 0x07] [0x40] []);
    try lia; try reflexivity; try discriminate.
Defined.

(** ** Edge cases of read_memory_region *)

(** X6: a range whose end lies below its start is rejected before any port
    call.  The block count is negative, so the loop does not run, and the
    final block read is asked for a negative count, which [bytearray]
    refuses with [ValueError]. *)
Theorem X6_negative_range_rejected (start stop : Z) (s : Serial) :
  0 <= start < 2 ^ 32 -> stop < start ->
  read_memory_region start stop s =
  (Raise (ValueError "byte must be in range(0, 256)"), s).
Proof.
  intros Ha Hlt. unfold read_memory_region.
  assert (Hb : (stop - start) / 253 < 0)
    by (apply Z.div_lt_upper_bound; lia).
  replace (Z.to_nat ((stop - start) / 253)) with O by lia.
  cbn [read_full_blocks]. unfold bind at 1. unfold ret at 1. cbn [fst snd].
  unfold bind.
  rewrite (read_memory_block_bad_count start (stop - start) s Ha) by (left; lia).
  reflexivity.
Qed.

Lemma X6_negative_range_rejected_witness :
  read_memory_region 0x1001cc00 0x10000000 (port []) =
  (Raise (ValueError "byte must be in range(0, 256)"), port []).
Proof.
  apply (X6_negative_range_rejected 0x1001cc00 0x10000000 (port [])); lia.
Defined.

Lemma block_plan_multiple (start stop : Z) :
  start <= stop -> (stop - start) mod 253 = 0 ->
  block_plan start stop
  = full_blocks start (Z.to_nat ((stop - start) / 253)) ++ [(stop, 0)].
Proof.
  intros Hle Hm. unfold block_plan. rewrite Hm. do 3 f_equal.
  pose proof (Z.div_mod (stop - start) 253 ltac:(lia)). lia.
Qed.

(** X7: the final block read is not skipped when nothing is left.  For a
    range whose length is a multiple of 253, the empty range included, a
    region read that returns has ended with one more block transaction, for
    zero bytes at the end address: its frame carries the count byte 0. *)
Theorem X7_zero_length_final_read
    (start stop : Z) (s s' : Serial) (data : bytes) :
  0 <= start -> start <= stop -> stop < 2 ^ 32 ->
  (stop - start) mod 253 = 0 ->
  read_memory_region start stop s = (Return data, s') ->
  written (trace s')
  = written (trace s)
    ++ flat_map block_writes (full_blocks start (Z.to_nat ((stop - start) / 253)))
    ++ [block_frame stop 0; [0x00; 0xcc]; [0x03; 0x23; 0x23]; [0xcc]]
  /\ nth 8 (block_frame stop 0) (-1) = 0
  /\ (start = stop -> data = []).
Proof.
  intros H0 Hle H1 Hm Hrun.
  rewrite (read_memory_region_plan _ _ _ Hle) in Hrun. unfold bind, ret in Hrun.
  destruct (read_blocks (block_plan start stop) s) as [[bs|e] s2] eqn:Hr; [|discriminate].
  injection Hrun as <- <-.
  destruct (read_blocks_return _ _ _ _ Hr) as (Hlen & _ & Hw).
  split; [|split].
  - rewrite Hw, (block_plan_multiple _ _ Hle Hm), flat_map_app. reflexivity.
  - reflexivity.
  - intros ->. rewrite sum_counts_block_plan in Hlen by lia.
    destruct (List.concat bs); [reflexivity|]. cbn [List.length] in Hlen. lia.
Qed.

Lemma X7_zero_length_final_read_witness :
  written (trace (snd (read_memory_region 0x10000000 0x10000000
                         (port [[0x00; 0xcc; 0x02; 0x00]; [0x00; 0xcc; 0x03; 0x40; 0x40]]))))
  = [block_frame 0x10000000 0; [0x00; 0xcc]; [0x03; 0x23; 0x23]; [0xcc]].
Proof.
  assert (H0 : 0 <= 0x10000000) by lia.
  assert (H1 : 0x10000000 <= 0x10000000) by lia.
  assert (H2 : 0x10000000 < 2 ^ 32) by lia.
  exact (proj1 (X7_zero_length_final_read 0x10000000 0x10000000
           (port [[0x00; 0xcc; 0x02; 0x00]; [0x00; 0xcc; 0x03; 0x40; 0x40]])
           (snd (read_memory_region 0x10000000 0x10000000
                   (port [[0x00; 0xcc; 0x02; 0x00]; [0x00; 0xcc; 0x03; 0x40; 0x40]])))
           [] H0 H1 H2 eq_refl eq_refl)).
Defined.

(** X8: a region read stops at the first block read that fails.  When the
    first [k] block reads of the plan succeed and the next one raises, the
    region read raises that same exception in the port state the failed
    block read left: no later block is requested and the bytes already
    read are not returned. *)
Theorem X8_region_read_fails_fast
    (start stop : Z) (s s1 s2 : Serial) (k : nat) (bs : list bytes)
    (p : Z * Z) (e : exn) :
  start <= stop ->
  nth_error (block_plan start stop) k = Some p ->
  read_blocks (firstn k (block_plan start stop)) s = (Return bs, s1) ->
  read_memory_block (fst p) (snd p) s1 = (Raise e, s2) ->
  read_memory_region start stop s = (Raise e, s2).
Proof.
  intros Hle Hk Hpre Hfail.
  rewrite (read_memory_region_plan _ _ _ Hle). unfold bind.
  destruct (nth_error_split _ _ Hk) as (l1 & l2 & Hsplit & Hl1).
  assert (Hfirst : firstn k (block_plan start stop) = l1).
  { rewrite Hsplit, <- Hl1, firstn_app, Nat.sub_diag, firstn_all.
    cbn [firstn]. apply app_nil_r. }
  rewrite Hfirst in Hpre. rewrite Hsplit, read_blocks_app, Hpre.
  cbn [read_blocks]. unfold bind. rewrite Hfail. reflexivity.
Qed.

Lemma X8_region_read_fails_fast_witness :
  read_memory_region 0 300
    (port [data_reply (fun a => a mod 256) 0 253; status_reply_success;
           []; [0x00; 0xcc; 0x03; 0x43; 0x43]; [0x00; 0xcc]])
  = (Raise (ValueError "ERROR! status:COMMAND_RET_INVALID_ADR"),
     snd (read_memory_block 253 47
            (snd (read_memory_block 0 253
                    (port [data_reply (fun a => a mod 256) 0 253; status_reply_success;
                           []; [0x00; 0xcc; 0x03; 0x43; 0x43]; [0x00; 0xcc]]))))).
Proof.
  apply (X8_region_read_fails_fast 0 300
           (port [data_reply (fun a => a mod 256) 0 253; status_reply_success;
                  []; [0x00; 0xcc; 0x03; 0x43; 0x43]; [0x00; 0xcc]])
           (snd (read_memory_block 0 253
                   (port [data_reply (fun a => a mod 256) 0 253; status_reply_success;
                          []; [0x00; 0xcc; 0x03; 0x43; 0x43]; [0x00; 0xcc]])))
           _ 1%nat [mem_bytes (fun a => a mod 256) 0 253] (253, 47)).
  - lia.
  - reflexivity.
  - vm_compute. reflexivity.
  - vm_compute. reflexivity.
Defined.

(** X9: a range that ends at 2^32 and whose length is a multiple of 253
    cannot be read.  The zero-length final block read is issued at address
    2^32, which does not fit four bytes: the region read never returns a
    value, and once every full block has been read it raises
    [OverflowError], dropping the bytes read so far. *)
Theorem X9_range_ending_at_2_32 (start : Z) (s : Serial) :
  0 <= start <= 2 ^ 32 -> (2 ^ 32 - start) mod 253 = 0 ->
  (exists e, fst (read_memory_region start (2 ^ 32) s) = Raise e)
  /\ (forall bs s1,
        read_blocks (full_blocks start (Z.to_nat ((2 ^ 32 - start) / 253))) s
        = (Return bs, s1) ->
        read_memory_region start (2 ^ 32) s
        = (Raise (OverflowError "int too big to convert"), s1)).
Proof.
  intros Ha Hm.
  assert (Hle : start <= 2 ^ 32) by lia.
  assert (E : read_memory_region start (2 ^ 32) s =
              match read_blocks (full_blocks start (Z.to_nat ((2 ^ 32 - start) / 253))) s with
              | (Return _, s1) => (Raise (OverflowError "int too big to convert"), s1)
              | (Raise e, s1) => (Raise e, s1)
              end).
  { rewrite (read_memory_region_plan _ _ _ Hle). unfold bind.
    rewrite (block_plan_multiple _ _ Hle Hm), read_blocks_app.
    destruct (read_blocks (full_blocks start _) s) as [[bs|e] s1]; [|reflexivity].
    cbn [read_blocks fst snd]. unfold bind.
    rewrite read_memory_block_too_big by lia. reflexivity. }
  rewrite E. split.
  - destruct (read_blocks (full_blocks start _) s) as [[bs|e] s1]; eexists; reflexivity.
  - intros bs s1 Hr. rewrite Hr. reflexivity.
Qed.

Lemma X9_range_ending_at_2_32_witness :
  read_memory_region (2 ^ 32 - 253) (2 ^ 32)
    (port [data_reply (fun a => a mod 256) (2 ^ 32 - 253) 253; status_reply_success])
  = (Raise (OverflowError "int too big to convert"),
     snd (read_memory_block (2 ^ 32 - 253) 253
            (port [data_reply (fun a => a mod 256) (2 ^ 32 - 253) 253;
                   status_reply_success]))).
Proof.
  assert (Ha : 0 <= 2 ^ 32 - 253 <= 2 ^ 32) by lia.
  apply (proj2 (X9_range_ending_at_2_32 (2 ^ 32 - 253)
                  (port [data_reply (fun a => a mod 256) (2 ^ 32 - 253) 253;
                         status_reply_success]) Ha eq_refl)
           [mem_bytes (fun a => a mod 256) (2 ^ 32 - 253) 253]).
  vm_compute. reflexivity.
Defined.

Lemma tl_tl_skipn (A : Type) (l : list A) : tl (tl l) = skipn 2 l.
Proof. destruct l as [|a [|b l]]; reflexivity. Qed.

Lemma read_blocks_pending (plan : list (Z * Z)) (s s' : Serial) (bs : list bytes) :
  read_blocks plan s = (Return bs, s') ->
  pending s' = skipn (2 * List.length plan) (pending s).
Proof.
  revert s bs; induction plan as [|p plan IH]; intros s bs; cbn [read_blocks].
  - unfold ret. intros H; injection H as <- <-. reflexivity.
  - unfold bind, ret.
    destruct (read_memory_block (fst p) (snd p) s) as [[b|e] s1] eqn:Hb; [|discriminate].
    destruct (read_blocks plan s1) as [[bs1|e] s2] eqn:Hr; [|discriminate].
    intros H; injection H as <- <-.
    rewrite (IH _ _ Hr).
    destruct (read_memory_block_return _ _ _ _ _ Hb) as (_ & _ & _ & _ & ->).
    unfold after_block. cbn [pending]. rewrite tl_tl_skipn, skipn_skipn.
    f_equal. cbn [List.length]. lia.
Qed.

Lemma length_flat_map_block_writes (plan : list (Z * Z)) :
  List.length (flat_map block_writes plan) = (4 * List.length plan)%nat.
Proof.
  induction plan as [|p plan IH]; [reflexivity|].
  cbn [flat_map block_writes app List.length]. rewrite IH. lia.
Qed.

(** X10: what a region read costs on the link.  A region read that returns
    has taken exactly two buffered replies per block read (the data
    response and the status response) and made exactly four writes per
    block read (frame, ACK token, status frame, ACK byte), for
    [(stop - start) div 253 + 1] block reads. *)
Theorem X10_region_read_link_usage
    (start stop : Z) (s s' : Serial) (data : bytes) :
  start <= stop ->
  read_memory_region start stop s = (Return data, s') ->
  let n := Z.to_nat ((stop - start) / 253 + 1) in
  pending s' = skipn (2 * n) (pending s)
  /\ List.length (written (trace s')) = (List.length (written (trace s)) + 4 * n)%nat.
Proof.
  intros Hle Hrun n.
  rewrite (read_memory_region_plan _ _ _ Hle) in Hrun. unfold bind, ret in Hrun.
  destruct (read_blocks (block_plan start stop) s) as [[bs|e] s2] eqn:Hr; [|discriminate].
  injection Hrun as <- <-.
  assert (Hn : List.length (block_plan start stop) = n)
    by (unfold n; rewrite <- (length_block_plan _ _ Hle); lia).
  destruct (read_blocks_return _ _ _ _ Hr) as (_ & _ & Hw).
  split.
  - rewrite (read_blocks_pending _ _ _ _ Hr), Hn. reflexivity.
  - rewrite Hw, length_app, length_flat_map_block_writes, Hn. reflexivity.
Qed.

Lemma X10_region_read_link_usage_witness :
  let s := port [data_reply (fun a => a mod 256) 0 253; status_reply_success;
                 data_reply (fun a => a mod 256) 253 47; status_reply_success;
                 [0x00; 0xcc]] in
  pending (snd (read_memory_region 0 300 s)) = [[0x00; 0xcc]]
  /\ List.length (written (trace (snd (read_memory_region 0 300 s)))) = 8%nat.
Proof.
  intros s.
  assert (Hle : 0 <= 300) by lia.
  exact (X10_region_read_link_usage 0 300 s (snd (read_memory_region 0 300 s))
           (mem_bytes (fun a => a mod 256) 0 300) Hle eq_refl).
Defined.

(** ** Framing and checksum *)

Lemma block_frame_well_formed (addr n : Z) : well_formed_frame (block_frame addr n).
Proof.
  unfold well_formed_frame, block_frame. split.
  - reflexivity.
  - apply checksum_mod.
Qed.

(** X11: every command frame the client sends obeys one framing rule: the
    first byte is the length of the whole frame and the second byte is the
    sum of the remaining bytes modulo 256.  This holds for the fixed frames
    of [get_chip_id], [ping] and [get_status] and for the frame that
    [read_memory_block] builds from any 32-bit address and any count in
    0..255, and these are the only frames those methods send. *)
Theorem X11_command_frames_well_formed (replies : list bytes) (addr n : Z) :
  command_frames (trace (snd (get_chip_id (port replies)))) = [[0x03; 0x28; 0x28]]
  /\ command_frames (trace (snd (ping (port replies)))) = [[0x03; 0x20; 0x20]]
  /\ command_frames (trace (snd (get_status (port replies)))) = [[0x03; 0x23; 0x23]]
  /\ Forall well_formed_frame [[0x03; 0x28; 0x28]; [0x03; 0x20; 0x20]; [0x03; 0x23; 0x23]]
  /\ (0 <= addr < 2 ^ 32 -> 0 <= n <= 255 ->
      exists frame,
        command_frames (trace (snd (read_memory_block addr n (port replies))))
        = [frame; [0x03; 0x23; 0x23]]
        /\ well_formed_frame frame
        /\ build_packet addr n = Return frame).
Proof.
  split; [|split; [|split; [|split]]].
  - rewrite get_chip_id_eq. reflexivity.
  - rewrite ping_eq. reflexivity.
  - rewrite get_status_eq. reflexivity.
  - repeat constructor.
  - intros Ha Hn. exists (block_frame addr n).
    rewrite (read_memory_block_eq _ _ _ _ (build_packet_ok _ _ Ha Hn)).
    split; [reflexivity|]. split; [apply block_frame_well_formed|].
    apply build_packet_ok; assumption.
Qed.

Lemma X11_command_frames_well_formed_witness :
  exists frame,
    command_frames (trace (snd (read_memory_block 0x10000000 253 (port []))))
    = [frame; [0x03; 0x23; 0x23]]
    /\ well_formed_frame frame
    /\ build_packet 0x10000000 253 = Return frame.
Proof.
  apply (X11_command_frames_well_formed [] 0x10000000 253); lia.
Defined.

Lemma sum_bytes_permutation (l l' : bytes) :
  Permutation l l' -> sum_bytes l = sum_bytes l'.
Proof.
  unfold sum_bytes. induction 1; cbn [fold_right]; lia.
Qed.

(** X12: the checksum does not see the order of the bytes.  Two bodies that
    are permutations of one another have the same checksum, so two block
    reads whose address bytes are a rearrangement of one another, with the
    same count, are sent with the same checksum byte although their frames
    differ. *)
Theorem X12_checksum_ignores_byte_order (addr addr' n : Z) :
  0 <= addr < 2 ^ 32 -> 0 <= addr' < 2 ^ 32 -> 0 <= n <= 255 ->
  Permutation (big_endian_4 addr) (big_endian_4 addr') ->
  (forall l l', Permutation l l' -> checksum l = checksum l')
  /\ exists chk body body',
       build_packet addr n = Return (9 :: chk :: body)
       /\ build_packet addr' n = Return (9 :: chk :: body')
       /\ (addr <> addr' -> body <> body').
Proof.
  intros Ha Ha' Hn Hperm.
  assert (Hall : forall l l', Permutation l l' -> checksum l = checksum l').
  { intros l l' Hp. rewrite !checksum_mod, (sum_bytes_permutation _ _ Hp). reflexivity. }
  split; [exact Hall|].
  exists (checksum (frame_body addr n)), (frame_body addr n), (frame_body addr' n).
  split; [apply build_packet_ok; assumption|]. split.
  - rewrite (Hall (frame_body addr n) (frame_body addr' n)).
    + apply build_packet_ok; assumption.
    + unfold frame_body. apply Permutation_app_head, Permutation_app_tail. exact Hperm.
  - intros Hne Heq. apply Hne.
    pose proof (big_endian_4_value addr Ha) as V.
    pose proof (big_endian_4_value addr' Ha') as V'.
    unfold frame_body in Heq. cbn [app] in Heq.
    assert (Hbe : big_endian_4 addr = big_endian_4 addr').
    { unfold big_endian_4 in *. cbn [app] in Heq. congruence. }
    rewrite <- Hbe in V'. destruct (big_endian_4 addr) as [|b3 [|b2 [|b1 [|b0 [|]]]]];
      try contradiction. congruence.
Qed.

Lemma X12_checksum_ignores_byte_order_witness :
  exists chk body body',
    build_packet 0x10200000 253 = Return (9 :: chk :: body)
    /\ build_packet 0x20100000 253 = Return (9 :: chk :: body')
    /\ (0x10200000 <> 0x20100000 -> body <> body').
Proof.
  apply (X12_checksum_ignores_byte_order 0x10200000 0x20100000 253); try lia.
  apply perm_swap.
Defined.

(** ** The notebook session *)

Lemma init_eq (s : Serial) :
  let s1 := mkSerial (tl (pending s))
              (trace s ++ [EvWrite [0x55; 0x55]; EvSleep; EvRead (next_reply s)]) in
  init s =
  if bytes_eqb (next_reply s) ACK then (Return tt, snd (get_chip_id s1))
  else (Raise (ValueError
          ("Expected the bootloader to reply with 00CC, instead it replied with: "
           ++ hex (next_reply s))%string), s1).
Proof.
  intros s1. unfold s1, next_reply. destruct s as [p t].
  unfold init, bind, ser_write, time_sleep, ser_read_in_waiting, log.
  destruct p as [|r0 p]; cbn [pending trace hd tl];
    repeat rewrite <- app_assoc; cbn [app].
  - reflexivity.
  - destruct (bytes_eqb r0 ACK); cbn [negb]; [|reflexivity].
    unfold get_chip_id, bind, ser_flushInput, ser_write, time_sleep,
      ser_read_in_waiting, ret, log.
    destruct p; reflexivity.
Qed.

Lemma bytes_eqb_neq (xs ys : bytes) : xs <> ys -> bytes_eqb xs ys = false.
Proof.
  intros N. destruct (bytes_eqb xs ys) eqn:E; [|reflexivity].
  exfalso; apply N; apply bytes_eqb_eq; exact E.
Qed.

(** X13: the notebook session (construct the interface, ping, dump a
    range) on a device that acknowledges the handshake and the ping and
    answers every block in full returns the content of the range, whatever
    the device answered to the chip-identifier query, and uses up exactly
    the replies of the handshake, the chip-identifier query, the ping and
    the block reads. *)
Theorem X13_dump_session_returns_range
    (start stop : Z) (mem : Z -> Z) (chip : bytes) (more : list bytes)
    (t : list event) :
  0 <= start -> start < stop -> stop < 2 ^ 32 ->
  let s := mkSerial ([0x00; 0xcc] :: chip :: [0x00; 0xcc]
                     :: healthy_replies mem (block_plan start stop) ++ more) t in
  fst (dump_session start stop s) = Return (mem_bytes mem start (stop - start))
  /\ pending (snd (dump_session start stop s)) = more.
Proof.
  intros H0 Hlt H1 s.
  assert (Hle : start <= stop) by lia.
  assert (E : exists s2,
             dump_session start stop s
             = (Return (mem_bytes mem start (stop - start)), s2)
             /\ pending s2 = more).
  { unfold dump_session. unfold bind at 1. rewrite init_eq.
    unfold s at 1 2. unfold next_reply. cbn [pending trace hd tl].
    change (bytes_eqb [0; 204] ACK) with true. cbn iota.
    rewrite get_chip_id_eq. unfold next_reply. cbn [pending trace hd tl snd].
    unfold bind at 1. rewrite ping_eq. unfold next_reply. cbn [pending trace hd tl].
    change (bytes_eqb [0; 204] ACK) with true. cbn iota.
    rewrite (read_memory_region_plan _ _ _ Hle). unfold bind, ret.
    match goal with |- context [read_blocks _ (mkSerial _ ?tr)] =>
      destruct (read_blocks_healthy mem (block_plan start stop) more tr
                  (valid_block_plan start stop H0 Hlt H1)) as [Hfst Hpend]
    end.
    destruct (read_blocks (block_plan start stop) _) as [[bs|e] s2];
      cbn [fst snd] in *; [|discriminate].
    injection Hfst as ->. exists s2. split; [|exact Hpend].
    do 2 f_equal. apply concat_mem_block_plan; exact Hle. }
  destruct E as (s2 & E & Hpend). rewrite E. split; [reflexivity | exact Hpend].
Qed.

Lemma X13_dump_session_returns_range_witness :
  fst (dump_session 0x10000000 0x10040000
         (mkSerial ([0x00; 0xcc] :: [0x00; 0xcc; 0x06; 0x22; 0x30; 0x02; 0xf0; 0x00]
                    :: [0x00; 0xcc]
                    :: healthy_replies (fun a => a mod 256)
                         (block_plan 0x10000000 0x10040000) ++ [])
                   []))
  = Return (mem_bytes (fun a => a mod 256) 0x10000000 (0x10040000 - 0x10000000)).
Proof.
  assert (Ha : 0 <= 0x10000000) by lia.
  assert (Hb : 0x10000000 < 0x10040000) by lia.
  assert (Hc : 0x10040000 < 2 ^ 32) by lia.
  exact (proj1 (X13_dump_session_returns_range 0x10000000 0x10040000
                  (fun a => a mod 256)
                  [0x00; 0xcc; 0x06; 0x22; 0x30; 0x02; 0xf0; 0x00] [] [] Ha Hb Hc)).
Defined.

(** X14: the session stops at its first failed step.  When the handshake
    reply is not the ACK token the session raises the handshake
    [ValueError] having written the sync pattern only; when the handshake
    is acknowledged and the ping is not, it raises the ping
    [AssertionError] and no read frame is ever written. *)
Theorem X14_dump_session_stops_at_first_failure (start stop : Z) (s : Serial) :
  (next_reply s <> [0x00; 0xcc] ->
   fst (dump_session start stop s)
   = Raise (ValueError
       ("Expected the bootloader to reply with 00CC, instead it replied with: "
        ++ hex (next_reply s))%string)
   /\ written (trace (snd (dump_session start stop s)))
      = written (trace s) ++ [[0x55; 0x55]])
  /\ (next_reply s = [0x00; 0xcc] ->
      hd [] (tl (tl (pending s))) <> [0x00; 0xcc] ->
      fst (dump_session start stop s)
      = Raise (AssertionError "Ping command was not acknowledged by device")
      /\ written (trace (snd (dump_session start stop s)))
         = written (trace s)
           ++ [[0x55; 0x55]; [0x03; 0x28; 0x28]; [0xcc]; [0x03; 0x20; 0x20]]).
Proof.
  split.
  - intros N.
    assert (E : dump_session start stop s =
              (Raise (ValueError
                 ("Expected the bootloader to reply with 00CC, instead it replied with: "
                  ++ hex (next_reply s))%string),
               mkSerial (tl (pending s))
                 (trace s ++ [EvWrite [0x55; 0x55]; EvSleep; EvRead (next_reply s)]))).
    { unfold dump_session. unfold bind at 1. rewrite init_eq.
      unfold ACK. rewrite (bytes_eqb_neq _ _ N). reflexivity. }
    rewrite E. cbn [fst snd trace]. split; [reflexivity|].
    rewrite written_app. reflexivity.
  - intros E N.
    assert (E1 : init s =
              (Return tt,
               mkSerial (tl (tl (pending s)))
                 (trace s ++ [EvWrite [0x55; 0x55]; EvSleep; EvRead (next_reply s);
                              EvFlushInput; EvWrite [0x03; 0x28; 0x28]; EvSleep;
                              EvRead (second_reply s); EvWrite [0xcc]]))).
    { rewrite init_eq. unfold ACK. rewrite (proj2 (bytes_eqb_eq _ _) E), get_chip_id_eq.
      cbn [snd pending trace]. unfold next_reply, second_reply. cbn [pending trace].
      rewrite <- app_assoc. reflexivity. }
    assert (E2 : dump_session start stop s =
              (Raise (AssertionError "Ping command was not acknowledged by device"),
               mkSerial (tl (tl (tl (pending s))))
                 ((trace s ++ [EvWrite [0x55; 0x55]; EvSleep; EvRead (next_reply s);
                               EvFlushInput; EvWrite [0x03; 0x28; 0x28]; EvSleep;
                               EvRead (second_reply s); EvWrite [0xcc]])
                  ++ [EvFlushInput; EvWrite [0x03; 0x20; 0x20]; EvSleep;
                      EvRead (hd [] (tl (tl (pending s))))]))).
    { unfold dump_session. unfold bind at 1. rewrite E1.
      unfold bind at 1. rewrite ping_eq. unfold next_reply at 1 2. cbn [pending trace].
      unfold ACK. rewrite (bytes_eqb_neq _ _ N). reflexivity. }
    rewrite E2. cbn [fst snd trace]. split; [reflexivity|].
    rewrite !written_app. rewrite <- app_assoc. reflexivity.
Qed.

Lemma X14_dump_session_stops_at_first_failure_witness :
  written (trace (snd (dump_session 0x10000000 0x1001cc00 (port [[0x00; 0x33]]))))
    = [[0x55; 0x55]]
  /\ written (trace (snd (dump_session 0x10000000 0x1001cc00
                            (port [[0x00; 0xcc]; [0x00; 0xcc; 0x06]; [0x00; 0x33]]))))
    = [[0x55; 0x55]; [0x03; 0x28; 0x28]; [0xcc]; [0x03; 0x20; 0x20]].
Proof.
  split.
  - apply (proj1 (X14_dump_session_stops_at_first_failure 0x10000000 0x1001cc00
                    (port [[0x00; 0x33]]))). discriminate.
  - apply (proj2 (X14_dump_session_stops_at_first_failure 0x10000000 0x1001cc00
                    (port [[0x00; 0xcc]; [0x00; 0xcc; 0x06]; [0x00; 0x33]]))).
    + reflexivity.
    + discriminate.
Defined.

(** * Properties of the PicoEMP class *)

Lemma starts_with_spec (sub xs : bytes) :
  starts_with sub xs = true <-> exists post, xs = sub ++ post.
Proof.
  revert xs; induction sub as [|b sub IH]; intros xs; cbn [starts_with app].
  - split; [intros _; exists xs; reflexivity | reflexivity].
  - destruct xs as [|x xs].
    + split; [discriminate | intros [post E]; discriminate].
    + rewrite andb_true_iff, Z.eqb_eq, IH. split.
      * intros [-> [post ->]]. exists post. reflexivity.
      * intros [post E]. injection E as -> ->. split; [reflexivity | exists post; reflexivity].
Qed.

Lemma bytes_in_spec (sub xs : bytes) :
  bytes_in sub xs = true <-> exists pre post, xs = pre ++ sub ++ post.
Proof.
  induction xs as [|x xs IH]; cbn [bytes_in]; rewrite orb_true_iff, starts_with_spec.
  - split.
    + intros [[post E]|F]; [|discriminate]. exists [], post. exact E.
    + intros (pre & post & E). left.
      destruct pre as [|p pre]; [exists post; exact E | discriminate].
  - rewrite IH. split.
    + intros [[post E]|(pre & post & E)].
      * exists [], post. exact E.
      * exists (x :: pre), post. rewrite E. reflexivity.
    + intros (pre & post & E). destruct pre as [|p pre].
      * left. exists post. exact E.
      * right. injection E as _ E. exists pre, post. exact E.
Qed.

Lemma pico_exchange (cmd text : bytes) (e : pico_exn) (s : Serial) :
  (pico_write cmd ;;;
   pico_sleep ;;;
   r <- pico_read_in_waiting ;;
   if bytes_in text r then pico_ret tt else pico_raise e)%pico s
  = (if bytes_in text (next_reply s) then PicoReturn tt else PicoRaise e,
     mkSerial (tl (pending s))
       (trace s ++ [EvWrite cmd; EvSleep; EvRead (next_reply s)])).
Proof.
  destruct s as [p t]. unfold pico_bind, pico_write, pico_sleep,
    pico_read_in_waiting, pico_ret, pico_raise, log, next_reply.
  destruct p as [|r p]; cbn [pending trace hd tl];
    repeat rewrite <- app_assoc; cbn [app].
  - destruct (bytes_in text []); reflexivity.
  - destruct (bytes_in text r); reflexivity.
Qed.

Lemma pico_command_spec_intro (f : PicoM unit) (cmd ack : string) :
  (forall s,
     f s = (if bytes_in (bytes_of_string ack) (next_reply s) then PicoReturn tt
            else PicoRaise PicoAssertionError,
            mkSerial (tl (pending s))
              (trace s ++ [EvWrite (bytes_of_string cmd ++ CRLF); EvSleep;
                           EvRead (next_reply s)]))) ->
  pico_command_spec f cmd ack.
Proof.
  intros H s r s'. rewrite H. fold r. cbn [fst snd].
  split; [reflexivity|]. rewrite <- bytes_in_spec.
  destruct (bytes_in (bytes_of_string ack) r); split.
  - split; reflexivity.
  - intros N. exfalso; apply N; reflexivity.
  - split; discriminate.
  - reflexivity.
Qed.

(** X15: each of the command methods [disable_timeout], [arm], [disarm] and
    [external_hvp] writes its command line once, reads once, and returns
    exactly when the expected confirmation text occurs somewhere in the
    bytes read, with anything before or after it; otherwise it raises
    [AssertionError], and the command has been sent all the same. *)
Theorem X15_pico_commands :
  pico_command_spec disable_timeout "disable_timeout" "Timeout disabled!"
  /\ pico_command_spec arm "arm" "Device armed"
  /\ pico_command_spec disarm "disarm" "Device disarmed!"
  /\ pico_command_spec external_hvp "external_hvp" "External HVP mode active".
Proof.
  split; [|split; [|split]]; apply pico_command_spec_intro; intros s;
    apply pico_exchange.
Qed.

(** X16: construction of the PicoEMP interface writes one CR LF, reads once
    and succeeds exactly when the banner text [PicoEMP Commands] occurs
    somewhere in the bytes read; for any other reply, the empty one
    included, it raises [OSError]. *)
Theorem X16_pico_init (s : Serial) :
  let r := next_reply s in
  let s' := mkSerial (tl (pending s)) (trace s ++ [EvWrite [13; 10]; EvSleep; EvRead r]) in
  snd (pico_init s) = s'
  /\ (fst (pico_init s) = PicoReturn tt <->
      exists pre post, r = pre ++ bytes_of_string "PicoEMP Commands" ++ post)
  /\ (fst (pico_init s) <> PicoReturn tt ->
      fst (pico_init s) = PicoRaise (OSError "Could not connect to ChipShouter PicoEMP :("))
  /\ (r = [] ->
      fst (pico_init s) = PicoRaise (OSError "Could not connect to ChipShouter PicoEMP :(")).
Proof.
  intros r s'. unfold pico_init. rewrite pico_exchange. fold r. cbn [fst snd].
  split; [reflexivity|]. rewrite <- bytes_in_spec.
  split; [|split].
  - destruct (bytes_in _ r); split; try reflexivity; discriminate.
  - destruct (bytes_in _ r); [intros N; exfalso; apply N; reflexivity | reflexivity].
  - intros ->. reflexivity.
Qed.

Lemma X16_pico_init_witness :
  fst (pico_init (port [[]])) =
    PicoRaise (OSError "Could not connect to ChipShouter PicoEMP :(")
  /\ fst (pico_init
            (port [bytes_of_string "> " ++ bytes_of_string "PicoEMP Commands"
                   ++ bytes_of_string ":"])) = PicoReturn tt.
Proof.
  split.
  - apply (X16_pico_init (port [[]])). reflexivity.
  - apply (proj1 (proj2 (X16_pico_init
             (port [bytes_of_string "> " ++ bytes_of_string "PicoEMP Commands"
                    ++ bytes_of_string ":"])))).
    exists (bytes_of_string "> "), (bytes_of_string ":"). reflexivity.
Defined.

(** X17: [setup_external_control] runs its three steps in order and stops
    at the first one that fails.  Without the confirmation of
    [disable_timeout] it raises [AssertionError] having written that
    command only; with it but without the confirmation of [external_hvp] it
    raises [AssertionError] having written two commands and never asks for
    the status; with both it writes the status command, and the outcome is
    then that of decoding the status reply. *)
Theorem X17_setup_external_control (decodable : bytes -> bool) (s : Serial) :
  let r1 := next_reply s in
  let r2 := second_reply s in
  let r3 := hd [] (tl (tl (pending s))) in
  let c1 := bytes_of_string "disable_timeout" ++ CRLF in
  let c2 := bytes_of_string "external_hvp" ++ CRLF in
  let c3 := bytes_of_string "status" ++ CRLF in
  (bytes_in (bytes_of_string "Timeout disabled!") r1 = false ->
   setup_external_control decodable s
   = (PicoRaise PicoAssertionError,
      mkSerial (tl (pending s)) (trace s ++ [EvWrite c1; EvSleep; EvRead r1])))
  /\ (bytes_in (bytes_of_string "Timeout disabled!") r1 = true ->
      bytes_in (bytes_of_string "External HVP mode active") r2 = false ->
      setup_external_control decodable s
      = (PicoRaise PicoAssertionError,
         mkSerial (tl (tl (pending s)))
           (trace s ++ [EvWrite c1; EvSleep; EvRead r1; EvWrite c2; EvSleep; EvRead r2])))
  /\ (bytes_in (bytes_of_string "Timeout disabled!") r1 = true ->
      bytes_in (bytes_of_string "External HVP mode active") r2 = true ->
      setup_external_control decodable s
      = (if decodable r3 then PicoReturn tt else PicoRaise UnicodeDecodeError,
         mkSerial (tl (tl (tl (pending s))))
           (trace s ++ [EvWrite c1; EvSleep; EvRead r1; EvWrite c2; EvSleep; EvRead r2;
                        EvWrite c3; EvSleep; EvRead r3]))).
Proof.
  intros r1 r2 r3 c1 c2 c3.
  assert (E1 : disable_timeout s =
            (if bytes_in (bytes_of_string "Timeout disabled!") r1 then PicoReturn tt
             else PicoRaise PicoAssertionError,
             mkSerial (tl (pending s)) (trace s ++ [EvWrite c1; EvSleep; EvRead r1])))
    by apply pico_exchange.
  set (s1 := mkSerial (tl (pending s)) (trace s ++ [EvWrite c1; EvSleep; EvRead r1])) in *.
  assert (E2 : external_hvp s1 =
            (if bytes_in (bytes_of_string "External HVP mode active") r2 then PicoReturn tt
             else PicoRaise PicoAssertionError,
             mkSerial (tl (tl (pending s)))
               (trace s ++ [EvWrite c1; EvSleep; EvRead r1; EvWrite c2; EvSleep; EvRead r2]))).
  { unfold external_hvp. rewrite pico_exchange. unfold s1, next_reply.
    cbn [pending trace]. rewrite <- app_assoc. reflexivity. }
  set (s2 := mkSerial (tl (tl (pending s)))
               (trace s ++ [EvWrite c1; EvSleep; EvRead r1; EvWrite c2; EvSleep; EvRead r2]))
    in *.
  assert (E3 : print_status decodable s2 =
            (if decodable r3 then PicoReturn tt else PicoRaise UnicodeDecodeError,
             mkSerial (tl (tl (tl (pending s))))
               (trace s ++ [EvWrite c1; EvSleep; EvRead r1; EvWrite c2; EvSleep; EvRead r2;
                            EvWrite c3; EvSleep; EvRead r3]))).
  { unfold print_status, pico_bind, pico_write, pico_sleep, pico_read_in_waiting,
      pico_ret, pico_raise, log, s2, r3. cbn [pending trace].
    destruct (tl (tl (pending s))) as [|x rest]; cbn [hd tl];
      repeat rewrite <- app_assoc; cbn [app];
      [destruct (decodable []) | destruct (decodable x)]; reflexivity. }
  unfold setup_external_control.
  split; [|split].
  - intros H1. unfold pico_bind at 1. rewrite E1, H1. reflexivity.
  - intros H1 H2. unfold pico_bind at 1. rewrite E1, H1.
    unfold pico_bind at 1. rewrite E2, H2. reflexivity.
  - intros H1 H2. unfold pico_bind at 1. rewrite E1, H1.
    unfold pico_bind at 1. rewrite E2, H2. exact E3.
Qed.

Lemma X17_setup_external_control_witness :
  written (trace (snd (setup_external_control (fun _ => true)
                         (port [bytes_of_string "Timeout disabled!";
                                bytes_of_string "Unknown command";
                                bytes_of_string "Status"]))))
  = [bytes_of_string "disable_timeout" ++ CRLF; bytes_of_string "external_hvp" ++ CRLF]
  /\ fst (setup_external_control (fun _ => true)
            (port [bytes_of_string "Timeout disabled!";
                   bytes_of_string "Unknown command";
                   bytes_of_string "Status"])) = PicoRaise PicoAssertionError.
Proof.
  destruct (X17_setup_external_control (fun _ => true)
              (port [bytes_of_string "Timeout disabled!";
                     bytes_of_string "Unknown command";
                     bytes_of_string "Status"])) as (_ & H & _).
  rewrite (H eq_refl eq_refl). split; reflexivity.
Defined.

(** * Properties of the target reset helpers *)

Lemma int_from_bytes_little_nonneg (r : bytes) :
  Forall (fun b => 0 <= b < 256) r -> 0 <= int_from_bytes_little r.
Proof.
  induction 1 as [|b r Hb _ IH]; cbn [int_from_bytes_little]; lia.
Qed.

Lemma int_from_bytes_little_zero (r : bytes) :
  Forall (fun b => 0 <= b < 256) r ->
  int_from_bytes_little r = 0 -> r = repeat 0 (List.length r).
Proof.
  induction 1 as [|b r Hb Hr IH]; cbn [int_from_bytes_little List.length repeat];
    [reflexivity|].
  intros E. pose proof (int_from_bytes_little_nonneg r Hr).
  assert (b = 0) by lia. assert (int_from_bytes_little r = 0) by lia.
  subst b. rewrite <- IH by assumption. reflexivity.
Qed.

Lemma int_from_bytes_little_zeros (k : nat) :
  int_from_bytes_little (repeat 0 k) = 0.
Proof.
  induction k as [|k IH]; cbn [repeat int_from_bytes_little]; [reflexivity|].
  rewrite IH. reflexivity.
Qed.

(** X18: the liveness test of [thorough_reset_dut] is weaker than the
    equality test of the experiment cell.  A reply of bytes decodes
    little-endian to 10000 exactly when it is 0x10 0x27 followed by any
    number of zero bytes, whereas the experiment cell takes only the
    four-byte reply 0x10 0x27 0x00 0x00 as the expected one: a two-byte
    reply 0x10 0x27 passes the liveness test and is counted as a fault.  An
    empty reply decodes to 0 and is counted as a crash. *)
Theorem X18_liveness_test (r : bytes) :
  Forall (fun b => 0 <= b < 256) r ->
  (int_from_bytes_little r = 10000 <-> exists k, r = [0x10; 0x27] ++ repeat 0 k)
  /\ (classify r = Expected <-> r = [0x10; 0x27; 0x00; 0x00])
  /\ (classify r = Expected -> int_from_bytes_little r = 10000)
  /\ (classify r = Crash <-> r = [])
  /\ (r = [0x10; 0x27] -> int_from_bytes_little r = 10000 /\ classify r = Fault)
  /\ (r = [] -> int_from_bytes_little r = 0).
Proof.
  intros Hr.
  assert (Hexp : classify r = Expected <-> r = [0x10; 0x27; 0x00; 0x00]).
  { unfold classify. rewrite <- bytes_eqb_eq.
    destruct (bytes_eqb r [0x10; 0x27; 0x00; 0x00]); cbn [negb].
    - split; reflexivity.
    - destruct (bytes_eqb r []); split; discriminate. }
  split; [|split; [exact Hexp|split; [|split; [|split]]]].
  - split.
    + intros E. destruct Hr as [|b0 r0 Hb0 Hr0]; [discriminate|].
      cbn [int_from_bytes_little] in E.
      pose proof (int_from_bytes_little_nonneg r0 Hr0) as N0.
      destruct Hr0 as [|b1 r1 Hb1 Hr1]; [cbn [int_from_bytes_little] in E; lia|].
      cbn [int_from_bytes_little] in E, N0.
      pose proof (int_from_bytes_little_nonneg r1 Hr1) as N1.
      assert (b0 = 0x10) by lia. assert (b1 = 0x27) by lia.
      assert (Z1 : int_from_bytes_little r1 = 0) by lia.
      subst b0 b1. exists (List.length r1).
      rewrite <- (int_from_bytes_little_zero r1 Hr1 Z1). reflexivity.
    + intros [k ->]. cbn [app int_from_bytes_little].
      rewrite int_from_bytes_little_zeros. reflexivity.
  - intros E. apply Hexp in E. rewrite E. reflexivity.
  - unfold classify. destruct r as [|b r']; [split; reflexivity|].
    cbn [bytes_eqb]. destruct (negb _); split; discriminate.
  - intros ->. split; reflexivity.
  - intros ->. reflexivity.
Qed.

Lemma X18_liveness_test_witness :
  (int_from_bytes_little [0x10; 0x27; 0x00] = 10000
   <-> exists k, [0x10; 0x27; 0x00] = [0x10; 0x27] ++ repeat 0 k)
  /\ (classify [0x10; 0x27; 0x00] = Expected
      <-> [0x10; 0x27; 0x00] = [0x10; 0x27; 0x00; 0x00]).
Proof.
  assert (Hr : Forall (fun b => 0 <= b < 256) [0x10; 0x27; 0x00])
    by (repeat constructor; lia).
  destruct (X18_liveness_test [0x10; 0x27; 0x00] Hr) as (H1 & H2 & _).
  split; [exact H1 | exact H2].
Defined.

Lemma lab_ser_read_eq (lab : Lab) :
  lab_ser_read lab =
  (hd [] (ser_pending lab),
   mkLab (tl (ser_pending lab))
         (lab_trace lab ++ [OnSer (EvRead (hd [] (ser_pending lab)))])).
Proof. unfold lab_ser_read, lab_log. destruct (ser_pending lab); reflexivity. Qed.

Lemma nth_hd_tl (P : list bytes) (i : nat) :
  nth i (hd [] P :: tl P) [] = nth i P [].
Proof. destruct P as [|r P]; [destruct i as [|[|i]]; reflexivity | reflexivity]. Qed.

Lemma nth_tl (P : list bytes) (i : nat) : nth i (tl P) [] = nth (S i) P [].
Proof. destruct P as [|r P]; [destruct i; reflexivity | reflexivity]. Qed.

Lemma skipn_tl (P : list bytes) (k : nat) : skipn k (tl P) = skipn (S k) P.
Proof. destruct P as [|r P]; [destruct k; reflexivity | reflexivity]. Qed.

Section ResetHelpers.

Variable sleep_check : seconds -> option exn.

Hypothesis sleep_0_05 : sleep_check s_0_05 = None.
Hypothesis sleep_0_1 : sleep_check s_0_1 = None.

Lemma reset_dut_accepted (d : seconds) (lab : Lab) :
  sleep_check d = None ->
  reset_dut sleep_check d lab =
  (Return tt, mkLab (ser_pending lab) (lab_trace lab ++ reset_events d)).
Proof.
  intros Hd. unfold reset_dut, lab_bind, lab_do, lab_sleep, lab_log, reset_events.
  cbn [ser_pending lab_trace]. rewrite Hd. cbn [ser_pending lab_trace].
  rewrite sleep_0_05. cbn [ser_pending lab_trace].
  repeat rewrite <- app_assoc. reflexivity.
Qed.

Lemma reset_dut_refused (d : seconds) (lab : Lab) (e : exn) :
  sleep_check d = Some e ->
  reset_dut sleep_check d lab =
  (Raise e, mkLab (ser_pending lab) (lab_trace lab ++ aborted_reset_events)).
Proof.
  intros Hd. unfold reset_dut, lab_bind, lab_do, lab_sleep, lab_log,
    aborted_reset_events.
  cbn [ser_pending lab_trace]. rewrite Hd.
  repeat rewrite <- app_assoc. reflexivity.
Qed.

(** One iteration of the loop, and the four ways the loop goes on from a
    reply. *)
Lemma retry_accepted (d : seconds) (lab : Lab) :
  sleep_check d = None ->
  (reset_dut sleep_check d ;;;
   lab_do (OnSer (EvWrite [0xAA])) ;;;
   lab_sleep sleep_check s_0_1 ;;;
   lab_read)%lab lab
  = (Return (hd [] (ser_pending lab)),
     mkLab (tl (ser_pending lab))
       (lab_trace lab ++ reset_events d ++ probe_events (hd [] (ser_pending lab)))).
Proof.
  intros Hd. unfold lab_bind at 1. rewrite (reset_dut_accepted d lab Hd).
  unfold lab_bind, lab_do, lab_sleep, lab_read, lab_log, probe_events.
  rewrite sleep_0_1. cbn [ser_pending lab_trace].
  rewrite lab_ser_read_eq. cbn [ser_pending lab_trace].
  repeat rewrite <- app_assoc. reflexivity.
Qed.

Lemma retry_refused (d : seconds) (lab : Lab) (e : exn) :
  sleep_check d = Some e ->
  (reset_dut sleep_check d ;;;
   lab_do (OnSer (EvWrite [0xAA])) ;;;
   lab_sleep sleep_check s_0_1 ;;;
   lab_read)%lab lab
  = (Raise e, mkLab (ser_pending lab) (lab_trace lab ++ aborted_reset_events)).
Proof.
  intros Hd. unfold lab_bind at 1. rewrite (reset_dut_refused d lab e Hd). reflexivity.
Qed.

Lemma loop_alive (fuel : nat) (delay : seconds) (ret : bytes) (lab : Lab) :
  alive ret = true ->
  thorough_reset_loop sleep_check fuel delay ret lab = Some (Return tt, lab).
Proof.
  unfold alive. intros H. destruct fuel; cbn [thorough_reset_loop]; rewrite H; reflexivity.
Qed.

Lemma loop_out_of_fuel (delay : seconds) (ret : bytes) (lab : Lab) :
  alive ret = false ->
  thorough_reset_loop sleep_check 0 delay ret lab = None.
Proof. unfold alive. intros H. cbn [thorough_reset_loop]. rewrite H. reflexivity. Qed.

Lemma loop_step (fuel : nat) (delay : seconds) (ret : bytes) (lab : Lab) :
  alive ret = false ->
  sleep_check (PrimFloat.add delay s_0_5) = None ->
  thorough_reset_loop sleep_check (S fuel) delay ret lab =
  thorough_reset_loop sleep_check fuel (PrimFloat.add delay s_0_5)
    (hd [] (ser_pending lab))
    (mkLab (tl (ser_pending lab))
       (lab_trace lab ++ reset_events (PrimFloat.add delay s_0_5)
        ++ probe_events (hd [] (ser_pending lab)))).
Proof.
  unfold alive. intros H Hd. cbn [thorough_reset_loop]. rewrite H. cbn [negb].
  rewrite (retry_accepted _ lab Hd). reflexivity.
Qed.

Lemma loop_step_refused (fuel : nat) (delay : seconds) (ret : bytes) (lab : Lab)
    (e : exn) :
  alive ret = false ->
  sleep_check (PrimFloat.add delay s_0_5) = Some e ->
  thorough_reset_loop sleep_check (S fuel) delay ret lab =
  Some (Raise e, mkLab (ser_pending lab) (lab_trace lab ++ aborted_reset_events)).
Proof.
  unfold alive. intros H Hd. cbn [thorough_reset_loop]. rewrite H. cbn [negb].
  rewrite (retry_refused _ lab e Hd). reflexivity.
Qed.

(** The calls of the first [n] iterations of the loop. *)
Lemma retries_S (delay : seconds) (P : list bytes) (n : nat) :
  flat_map (fun i => reset_events (retry_delay delay (S i))
                     ++ probe_events (nth i P []))
           (seq 0 (S n))
  = (reset_events (PrimFloat.add delay s_0_5) ++ probe_events (hd [] P))
    ++ flat_map (fun i => reset_events (retry_delay (PrimFloat.add delay s_0_5) (S i))
                          ++ probe_events (nth i (tl P) []))
                (seq 0 n).
Proof.
  cbn [seq flat_map]. f_equal.
  - destruct P; reflexivity.
  - rewrite <- seq_shift, flat_map_concat_map, map_map, <- flat_map_concat_map.
    apply flat_map_ext. intros i. rewrite nth_tl.
    unfold retry_delay. rewrite (Nat.iter_succ_r (S i)). reflexivity.
Qed.

Lemma retry_delay_shift (delay : seconds) (i : nat) :
  retry_delay (PrimFloat.add delay s_0_5) i = retry_delay delay (S i).
Proof. unfold retry_delay. rewrite (Nat.iter_succ_r i). reflexivity. Qed.

Lemma thorough_reset_loop_returns (k : nat) :
  forall (fuel : nat) (delay : seconds) (ret : bytes) (lab : Lab),
    (forall i, (i < k)%nat -> sleep_check (retry_delay delay (S i)) = None) ->
    (forall i, (i < k)%nat -> alive (nth i (ret :: ser_pending lab) []) = false) ->
    alive (nth k (ret :: ser_pending lab) []) = true ->
    (k <= fuel)%nat ->
    thorough_reset_loop sleep_check fuel delay ret lab =
    Some (Return tt,
          mkLab (skipn k (ser_pending lab))
            (lab_trace lab
             ++ flat_map (fun i => reset_events (retry_delay delay (S i))
                                   ++ probe_events (nth i (ser_pending lab) []))
                         (seq 0 k))).
Proof.
  induction k as [|k IH]; intros fuel delay ret lab Hsleep Hdead Halive Hfuel.
  - rewrite (loop_alive _ _ _ _ Halive). destruct lab as [P t].
    cbn [skipn seq flat_map ser_pending lab_trace]. rewrite app_nil_r. reflexivity.
  - destruct fuel as [|fuel]; [lia|].
    rewrite loop_step;
      [| exact (Hdead O ltac:(lia)) | exact (Hsleep O ltac:(lia)) ].
    rewrite (IH fuel).
    + cbn [ser_pending lab_trace]. rewrite skipn_tl, retries_S.
      repeat rewrite <- app_assoc. reflexivity.
    + intros i Hi. rewrite retry_delay_shift. apply Hsleep. lia.
    + intros i Hi. cbn [ser_pending]. rewrite nth_hd_tl. apply (Hdead (S i)). lia.
    + cbn [ser_pending]. rewrite nth_hd_tl. exact Halive.
    + lia.
Qed.

Lemma thorough_reset_loop_refused (j : nat) :
  forall (fuel : nat) (delay : seconds) (ret : bytes) (lab : Lab) (e : exn),
    (forall i, (i < j)%nat -> sleep_check (retry_delay delay (S i)) = None) ->
    sleep_check (retry_delay delay (S j)) = Some e ->
    (forall i, (i <= j)%nat -> alive (nth i (ret :: ser_pending lab) []) = false) ->
    (j < fuel)%nat ->
    thorough_reset_loop sleep_check fuel delay ret lab =
    Some (Raise e,
          mkLab (skipn j (ser_pending lab))
            (lab_trace lab
             ++ flat_map (fun i => reset_events (retry_delay delay (S i))
                                   ++ probe_events (nth i (ser_pending lab) []))
                         (seq 0 j)
             ++ aborted_reset_events)).
Proof.
  induction j as [|j IH]; intros fuel delay ret lab e Hsleep Hrefused Hdead Hfuel;
    (destruct fuel as [|fuel]; [lia|]).
  - rewrite (loop_step_refused fuel delay ret lab e);
      [| exact (Hdead O ltac:(lia)) | exact Hrefused ].
    destruct lab as [P t]. reflexivity.
  - rewrite loop_step;
      [| exact (Hdead O ltac:(lia)) | exact (Hsleep O ltac:(lia)) ].
    rewrite (IH fuel _ _ _ e).
    + cbn [ser_pending lab_trace]. rewrite skipn_tl, retries_S.
      repeat rewrite <- app_assoc. reflexivity.
    + intros i Hi. rewrite retry_delay_shift. apply Hsleep. lia.
    + rewrite retry_delay_shift. exact Hrefused.
    + intros i Hi. cbn [ser_pending]. rewrite nth_hd_tl. apply (Hdead (S i)). lia.
    + lia.
Qed.

Lemma thorough_reset_loop_runs_on (fuel : nat) :
  forall (delay : seconds) (ret : bytes) (lab : Lab),
    (forall i, (i < fuel)%nat -> sleep_check (retry_delay delay (S i)) = None) ->
    (forall i, alive (nth i (ret :: ser_pending lab) []) = false) ->
    thorough_reset_loop sleep_check fuel delay ret lab = None.
Proof.
  induction fuel as [|fuel IH]; intros delay ret lab Hsleep Hdead.
  - apply loop_out_of_fuel. exact (Hdead O).
  - rewrite loop_step; [| exact (Hdead O) | exact (Hsleep O ltac:(lia)) ].
    apply IH.
    + intros i Hi. rewrite retry_delay_shift. apply Hsleep. lia.
    + intros i. cbn [ser_pending]. rewrite nth_hd_tl. apply (Hdead (S i)).
Qed.

Lemma thorough_reset_dut_accepted (fuel : nat) (delay : seconds) (lab : Lab) :
  sleep_check delay = None ->
  thorough_reset_dut sleep_check fuel delay lab =
  thorough_reset_loop sleep_check fuel delay (hd [] (ser_pending lab))
    (mkLab (tl (ser_pending lab))
       (lab_trace lab ++ reset_events delay ++ [OnSer EvFlushInput]
        ++ probe_events (hd [] (ser_pending lab)))).
Proof.
  intros Hd. unfold thorough_reset_dut. unfold lab_bind at 1.
  rewrite (reset_dut_accepted delay lab Hd).
  unfold lab_bind, lab_do, lab_sleep, lab_read, lab_log, probe_events.
  rewrite sleep_0_1. cbn [ser_pending lab_trace].
  rewrite lab_ser_read_eq. cbn [ser_pending lab_trace].
  repeat rewrite <- app_assoc. reflexivity.
Qed.

Lemma thorough_reset_dut_refused (fuel : nat) (delay : seconds) (lab : Lab) (e : exn) :
  sleep_check delay = Some e ->
  thorough_reset_dut sleep_check fuel delay lab =
  Some (Raise e, mkLab (ser_pending lab) (lab_trace lab ++ aborted_reset_events)).
Proof.
  intros Hd. unfold thorough_reset_dut. unfold lab_bind at 1.
  rewrite (reset_dut_refused delay lab e Hd). reflexivity.
Qed.

Lemma completed_attempts_S (delay : seconds) (replies : list bytes) (n : nat) :
  completed_attempts delay replies (S n)
  = (reset_events delay ++ [OnSer EvFlushInput] ++ probe_events (hd [] replies))
    ++ flat_map (fun i => reset_events (retry_delay delay (S i))
                          ++ probe_events (nth i (tl replies) []))
                (seq 0 n).
Proof.
  unfold completed_attempts. repeat rewrite <- app_assoc. do 3 f_equal.
  - destruct replies; reflexivity.
  - rewrite <- seq_shift, flat_map_concat_map, map_map, <- flat_map_concat_map.
    apply flat_map_ext. intros i. rewrite nth_tl. reflexivity.
Qed.

End ResetHelpers.

(** X19: [thorough_reset_dut], for a [time.sleep] that accepts the fixed
    lengths 0.05 and 0.1.  Attempt number 0 is a reset sleeping [delay] and
    a probe after a second [flushInput]; attempt number [i] is a reset
    sleeping [delay] plus [i] times 0.5 and a probe.  (1) If the sleeps of
    attempts 0..k are accepted and the reply to probe [k] is the first that
    decodes to 10000, the function returns after those [k + 1] attempts,
    having used up their replies.  (2) If [time.sleep] refuses the delay of
    attempt [j], the earlier delays being accepted and the earlier replies
    not decoding to 10000, the function raises that exception after [j]
    attempts, in the middle of the reset: the target is left with its reset
    line low and its power off, and for [j = 0] (a negative or NaN [delay])
    no call on the serial port has been made.  (3) As long as the delays
    are accepted and no reply decodes to 10000, an empty reply when nothing
    is buffered included, the loop goes on: it has not ended after any
    number of iterations whose delays are accepted. *)
Theorem X19_thorough_reset_dut
    (sleep_check : seconds -> option exn) (delay : seconds) (lab : Lab) :
  sleep_check s_0_05 = None ->
  sleep_check s_0_1 = None ->
  let replies := ser_pending lab in
  (forall k fuel,
     (forall i, (i <= k)%nat -> sleep_check (retry_delay delay i) = None) ->
     (forall i, (i < k)%nat -> alive (nth i replies []) = false) ->
     alive (nth k replies []) = true ->
     (k <= fuel)%nat ->
     thorough_reset_dut sleep_check fuel delay lab =
     Some (Return tt,
           mkLab (skipn (S k) replies)
             (lab_trace lab ++ completed_attempts delay replies (S k))))
  /\ (forall j fuel e,
        (forall i, (i < j)%nat -> sleep_check (retry_delay delay i) = None) ->
        sleep_check (retry_delay delay j) = Some e ->
        (forall i, (i < j)%nat -> alive (nth i replies []) = false) ->
        (j <= fuel)%nat ->
        thorough_reset_dut sleep_check fuel delay lab =
        Some (Raise e,
              mkLab (skipn j replies)
                (lab_trace lab ++ completed_attempts delay replies j
                 ++ aborted_reset_events)))
  /\ (forall fuel,
        (forall i, (i <= fuel)%nat -> sleep_check (retry_delay delay i) = None) ->
        (forall i, alive (nth i replies []) = false) ->
        thorough_reset_dut sleep_check fuel delay lab = None).
Proof.
  intros S05 S01 replies. split; [|split].
  - intros k fuel Hsleep Hdead Halive Hfuel.
    rewrite (thorough_reset_dut_accepted sleep_check S05 S01)
      by exact (Hsleep O ltac:(lia)).
    rewrite (thorough_reset_loop_returns sleep_check S05 S01 k).
    + cbn [ser_pending lab_trace]. fold replies.
      rewrite skipn_tl, completed_attempts_S.
      repeat rewrite <- app_assoc. reflexivity.
    + intros i Hi. apply Hsleep. lia.
    + intros i Hi. cbn [ser_pending]. rewrite nth_hd_tl. apply Hdead. exact Hi.
    + cbn [ser_pending]. rewrite nth_hd_tl. exact Halive.
    + exact Hfuel.
  - intros j fuel e Hsleep Hrefused Hdead Hfuel. destruct j as [|j].
    + rewrite (thorough_reset_dut_refused sleep_check fuel delay lab e Hrefused).
      destruct lab as [P t]. reflexivity.
    + rewrite (thorough_reset_dut_accepted sleep_check S05 S01)
        by exact (Hsleep O ltac:(lia)).
      rewrite (thorough_reset_loop_refused sleep_check S05 S01 j _ _ _ _ e).
      * cbn [ser_pending lab_trace]. fold replies.
        rewrite skipn_tl, completed_attempts_S.
        repeat rewrite <- app_assoc. reflexivity.
      * intros i Hi. apply Hsleep. lia.
      * exact Hrefused.
      * intros i Hi. cbn [ser_pending]. rewrite nth_hd_tl. apply Hdead. lia.
      * lia.
  - intros fuel Hsleep Hdead.
    rewrite (thorough_reset_dut_accepted sleep_check S05 S01)
      by exact (Hsleep O ltac:(lia)).
    apply (thorough_reset_loop_runs_on sleep_check S05 S01).
    + intros i Hi. apply Hsleep. lia.
    + intros i. cbn [ser_pending]. rewrite nth_hd_tl. apply Hdead.
Qed.

Lemma X19_thorough_reset_dut_witness :
  let lab := mkLab [[]; [0x0f; 0x27; 0x00; 0x00]; [0x10; 0x27; 0x00; 0x00]; [0x01]] [] in
  thorough_reset_dut refuse_negative 5 s_0_05 lab
  = Some (Return tt, mkLab [[0x01]] (completed_attempts s_0_05 (ser_pending lab) 3))
  /\ thorough_reset_dut refuse_negative 5 (-1)%float lab
     = Some (Raise (ValueError "sleep length must be non-negative"),
             mkLab (ser_pending lab) [ScopeNrst "low"; ScopeTargetPwr false])
  /\ thorough_reset_dut refuse_negative 5 s_0_05 (mkLab [] []) = None.
Proof.
  intros lab.
  assert (S05 : refuse_negative s_0_05 = None) by reflexivity.
  assert (S01 : refuse_negative s_0_1 = None) by reflexivity.
  split; [|split].
  - apply (proj1 (X19_thorough_reset_dut refuse_negative s_0_05 lab S05 S01)
             2%nat 5%nat).
    + intros i Hi. destruct i as [|[|[|i]]]; [reflexivity | reflexivity | reflexivity | lia].
    + intros i Hi. destruct i as [|[|i]]; [reflexivity | reflexivity | lia].
    + reflexivity.
    + lia.
  - apply (proj1 (proj2 (X19_thorough_reset_dut refuse_negative (-1)%float lab S05 S01))
             0%nat 5%nat).
    + intros i Hi. lia.
    + reflexivity.
    + intros i Hi. lia.
    + lia.
  - apply (proj2 (proj2 (X19_thorough_reset_dut refuse_negative s_0_05
                           (mkLab [] []) S05 S01)) 5%nat).
    + intros i Hi.
      destruct i as [|[|[|[|[|[|i]]]]]]; try reflexivity. lia.
    + intros i. destruct i; reflexivity.
Defined.
